(** * Stremio addon manifest validator: the validation core and the
      event handlers of the single-page application

    The development follows [src/lib/validation.ts] (the two-pass
    [validate]), its older single-pass version, and the handlers of
    [App]: [handleValidate], [handleShare], the load-time effect that
    decodes a shared link, and [handleDrop].

    Everything the handlers obtain from the JavaScript host or from npm
    packages (zod and the manifest schema, [JSON], [fetch], lz-string,
    [URLSearchParams], [history.replaceState], the clipboard) is a
    parameter of the development. *)

From Stdlib Require Import List String Ascii Bool NArith ZArith Lia.
From Stdlib Require Import DecimalString.
Import ListNotations.

Set Implicit Arguments.
Set Warnings "-register-all".

(** ** JavaScript strings *)

(** A JavaScript string is a sequence of UTF-16 code units. *)
Definition codeUnit := N.
Definition jsstring := list codeUnit.

(** String literals of the source, written as Rocq strings. *)
Definition lit (s : string) : jsstring :=
  map N_of_ascii (list_ascii_of_string s).

Fixpoint jsstring_eqb (a b : jsstring) : bool :=
  match a, b with
  | [], [] => true
  | x :: a', y :: b' => N.eqb x y && jsstring_eqb a' b'
  | _, _ => false
  end.

(** [!s] of the source: the empty string is the only falsy string. *)
Definition falsy (s : jsstring) : bool :=
  match s with [] => true | _ :: _ => false end.

(** [String.prototype.startsWith]. *)
Fixpoint startsWith (s prefix : jsstring) : bool :=
  match prefix, s with
  | [], _ => true
  | p :: prefix', c :: s' => N.eqb p c && startsWith s' prefix'
  | _ :: _, [] => false
  end.

(** ECMAScript [WhiteSpace] and [LineTerminator] code points, all of
    which are single code units: the characters [trim] removes. *)
Definition isWhiteSpace (c : codeUnit) : bool :=
  ((9 <=? c) && (c <=? 13) || (c =? 32) || (c =? 160) || (c =? 5760)
   || (8192 <=? c) && (c <=? 8202)
   || (c =? 8232) || (c =? 8233) || (c =? 8239) || (c =? 8287)
   || (c =? 12288) || (c =? 65279))%N.

Fixpoint trimStart (s : jsstring) : jsstring :=
  match s with
  | c :: s' => if isWhiteSpace c then trimStart s' else s
  | [] => []
  end.

Definition trimEnd (s : jsstring) : jsstring := rev (trimStart (rev s)).

(** [String.prototype.trim]. *)
Definition trim (s : jsstring) : jsstring := trimEnd (trimStart s).

(** ** JSON values, zod issues and results *)

(** The values [JSON.parse] and [response.json()] produce.  Numbers are
    kept as integers: schema matching only looks at the tag of a value
    and none of the handlers computes with numbers. *)
Inductive json : Type :=
| JNull
| JBool (b : bool)
| JNumber (n : Z)
| JString (s : jsstring)
| JArray (elements : list json)
| JObject (members : list (jsstring * json)).

(** An entry of an issue path: a property name or an array index. *)
Inductive pathSegment : Type :=
| Key (k : jsstring)
| Index (i : N).

Record ZodIssue : Type := mkIssue {
  code : jsstring;
  path : list pathSegment;
  message : jsstring
}.

(** [new ZodError(issues)]. *)
Record ZodError : Type := mkZodError { issues : list ZodIssue }.

(** What [safeParse] returns: [{success: true, data}] or
    [{success: false, error}]. *)
Inductive SafeParseResult : Type :=
| ParseSuccess (parsed : json)
| ParseFailure (err : ZodError).

(** The object [validate] returns and the application stores, typed in
    [App] as [{success: boolean; data?: unknown; error?: ZodError;
    warning?: ZodError}].  An absent optional field is [None]. *)
Record ValidationResult : Type := mkResult {
  success : bool;
  data : option json;
  error : option ZodError;
  warning : option ZodError
}.

(** The interface of a zod object schema that [validate] relies on. *)
Class ZodSchema (Schema : Type) : Type := {
  safeParse : Schema -> json -> SafeParseResult;
  strict : Schema -> Schema
}.

(** ** [src/lib/validation.ts] *)

Section Validation.
Context {Schema : Type} `{ZodSchema Schema}.
Variable manifestSchema : Schema.

(** The two-pass [validate]. *)
Definition validate (manifest : json) : ValidationResult :=
  let result := safeParse manifestSchema manifest in
  match result with
  | ParseSuccess result_data =>
      let strictResult := safeParse (strict manifestSchema) manifest in
      match strictResult with
      | ParseFailure strictResult_error =>
          {| success := true; data := Some result_data;
             error := None; warning := Some strictResult_error |}
      | ParseSuccess _ =>
          {| success := true; data := Some result_data;
             error := None; warning := None |}
      end
  | ParseFailure result_error =>
      {| success := false; data := None;
         error := Some result_error; warning := None |}
  end.

(** The older, single-pass [validate]: the schema's own result. *)
Definition validate_v1 (manifest : json) : SafeParseResult :=
  safeParse manifestSchema manifest.
End Validation.

(** A [safeParse] result read at the type the application stores. *)
Definition asValidationResult (r : SafeParseResult) : ValidationResult :=
  match r with
  | ParseSuccess d =>
      {| success := true; data := Some d; error := None; warning := None |}
  | ParseFailure e =>
      {| success := false; data := None; error := Some e; warning := None |}
  end.

(** The three variants of the validation outcome. *)
Definition Failure (e : ZodError) : ValidationResult :=
  {| success := false; data := None; error := Some e; warning := None |}.
Definition Success (d : json) : ValidationResult :=
  {| success := true; data := Some d; error := None; warning := None |}.
Definition SuccessWithWarnings (d : json) (w : ZodError) : ValidationResult :=
  {| success := true; data := Some d; error := None; warning := Some w |}.

(** ** The schema engine *)

(** Modelled from the spec: zod and the manifest schema of
    [@stremio-addon/zod], which [validate] imports and which are not part
    of the sources.  A schema declares, for every object, its fields with
    their types, each required or optional.  A permissive match accepts
    undeclared fields; a strict match rejects every field that is not
    declared, each such field surfacing as one issue.  An issue carries a
    category code, the path of the field and a message. *)
Inductive shape : Type :=
| SString
| SNumber
| SBoolean
| SArray (elem : shape)
| SObject (fields : fieldList)
with fieldList : Type :=
| FNil
| FCons (name : jsstring) (required : bool) (ty : shape) (rest : fieldList).

Scheme shape_mut := Induction for shape Sort Prop
  with fieldList_mut := Induction for fieldList Sort Prop.
Combined Scheme shape_fieldList_ind from shape_mut, fieldList_mut.

Fixpoint lookup (k : jsstring) (members : list (jsstring * json))
  : option json :=
  match members with
  | [] => None
  | (k', v) :: rest => if jsstring_eqb k k' then Some v else lookup k rest
  end.

Fixpoint declared (k : jsstring) (fs : fieldList) : bool :=
  match fs with
  | FNil => false
  | FCons name _ _ rest => jsstring_eqb k name || declared k rest
  end.

Definition invalidType (p : list pathSegment) : ZodIssue :=
  {| code := lit "invalid_type"; path := p;
     message := lit "Invalid input" |}.

Definition missingField (p : list pathSegment) : ZodIssue :=
  {| code := lit "invalid_type"; path := p;
     message := lit "Required" |}.

Definition unrecognizedKey (p : list pathSegment) : ZodIssue :=
  {| code := lit "unrecognized_keys"; path := p;
     message := lit "Unrecognized key" |}.

(** The issues of the elements of an array, each under its index. *)
Fixpoint checkElements (checkOne : list pathSegment -> json -> list ZodIssue)
    (p : list pathSegment) (i : N) (xs : list json) : list ZodIssue :=
  match xs with
  | [] => []
  | x :: rest =>
      checkOne (p ++ [Index i]) x ++ checkElements checkOne p (N.succ i) rest
  end.

(** One issue for every member whose name is not declared. *)
Fixpoint unknownKeys (fs : fieldList) (p : list pathSegment)
    (members : list (jsstring * json)) : list ZodIssue :=
  match members with
  | [] => []
  | (k, _) :: rest =>
      if declared k fs then unknownKeys fs p rest
      else unrecognizedKey (p ++ [Key k]) :: unknownKeys fs p rest
  end.

(** Modelled from the spec: the schema match, permissive or strict.  The
    list of issues is empty exactly when the value matches. *)
Fixpoint check (strictMode : bool) (s : shape) (p : list pathSegment)
    (v : json) {struct s} : list ZodIssue :=
  match s, v with
  | SString, JString _ => []
  | SNumber, JNumber _ => []
  | SBoolean, JBool _ => []
  | SArray e, JArray xs => checkElements (check strictMode e) p 0%N xs
  | SObject fs, JObject members =>
      checkFields strictMode fs p members
      ++ (if strictMode then unknownKeys fs p members else [])
  | _, _ => [invalidType p]
  end
with checkFields (strictMode : bool) (fs : fieldList) (p : list pathSegment)
    (members : list (jsstring * json)) {struct fs} : list ZodIssue :=
  match fs with
  | FNil => []
  | FCons k req t rest =>
      match lookup k members with
      | Some v => check strictMode t (p ++ [Key k]) v
      | None => if req then [missingField (p ++ [Key k])] else []
      end
      ++ checkFields strictMode rest p members
  end.

(** Modelled from the spec: a schema is a shape together with its
    matching mode; [strict] switches the mode, [safeParse] succeeds with
    the parsed document when the match reports no issue. *)
Record SpecSchema : Type := mkSpecSchema {
  shapeOf : shape;
  strictMode : bool
}.

Definition specSafeParse (sch : SpecSchema) (v : json) : SafeParseResult :=
  match check (strictMode sch) (shapeOf sch) [] v with
  | [] => ParseSuccess v
  | i :: rest => ParseFailure {| issues := i :: rest |}
  end.

Definition specStrict (sch : SpecSchema) : SpecSchema :=
  {| shapeOf := shapeOf sch; strictMode := true |}.

#[export] Instance SpecSchema_ZodSchema : ZodSchema SpecSchema :=
  {| safeParse := specSafeParse; strict := specStrict |}.

(** A manifest schema is permissive until [strict] is applied. *)
Definition permissive (s : shape) : SpecSchema :=
  {| shapeOf := s; strictMode := false |}.

(** The number of fields of a value that its schema does not declare,
    at top level or nested. *)
Fixpoint undeclaredFields (s : shape) (v : json) {struct s} : nat :=
  match s, v with
  | SArray e, JArray xs => list_sum (map (undeclaredFields e) xs)
  | SObject fs, JObject members =>
      List.length (filter (fun m => negb (declared (fst m) fs)) members)
      + undeclaredBelow fs members
  | _, _ => 0
  end
with undeclaredBelow (fs : fieldList) (members : list (jsstring * json))
    {struct fs} : nat :=
  match fs with
  | FNil => 0
  | FCons k _ t rest =>
      match lookup k members with
      | Some v => undeclaredFields t v
      | None => 0
      end
      + undeclaredBelow rest members
  end.

(** A value conforms to a shape when the permissive match has no issue. *)
Definition conforms (s : shape) (v : json) : Prop :=
  check false s [] v = [].

(** The type constraint of a shape on the value itself. *)
Definition typeMismatch (s : shape) (v : json) : bool :=
  match s, v with
  | SString, JString _ => false
  | SNumber, JNumber _ => false
  | SBoolean, JBool _ => false
  | SArray _, JArray _ => false
  | SObject _, JObject _ => false
  | _, _ => true
  end.

(** [HasField fs k req t]: the schema declares field [k] of type [t]. *)
Inductive HasField : fieldList -> jsstring -> bool -> shape -> Prop :=
| HasField_here k req t rest : HasField (FCons k req t rest) k req t
| HasField_later k req t k' req' t' rest :
    HasField rest k req t -> HasField (FCons k' req' t' rest) k req t.

(** [Violates s v p]: the value [v] breaks a required-field or a type
    constraint of [s], and [p] is the path of the offending field. *)
Inductive Violates : shape -> json -> list pathSegment -> Prop :=
| Violates_type s v :
    typeMismatch s v = true -> Violates s v []
| Violates_element e xs i x p :
    nth_error xs i = Some x -> Violates e x p ->
    Violates (SArray e) (JArray xs) (Index (N.of_nat i) :: p)
| Violates_missing fs members k t :
    HasField fs k true t -> lookup k members = None ->
    Violates (SObject fs) (JObject members) [Key k]
| Violates_field fs members k req t v p :
    HasField fs k req t -> lookup k members = Some v -> Violates t v p ->
    Violates (SObject fs) (JObject members) (Key k :: p).

(** ** Exceptions and component state *)

(** A computation returns a value or throws; of a thrown [Error] the
    handlers only ever read the [message]. *)
Inductive outcome (A : Type) : Type :=
| Returned (a : A)
| Thrown (msg : jsstring).
Arguments Returned {A} a.
Arguments Thrown {A} msg.

(** The state of the [App] component: one field per [useState]. *)
Record AppState : Type := mkState {
  input : jsstring;
  isDragging : bool;
  isCopied : bool;
  validationResult : option ValidationResult;
  isLoading : bool
}.

(** The state of a freshly mounted component. *)
Definition initialState : AppState :=
  {| input := []; isDragging := false; isCopied := false;
     validationResult := None; isLoading := false |}.

Definition setInput (v : jsstring) (st : AppState) : AppState :=
  {| input := v; isDragging := isDragging st; isCopied := isCopied st;
     validationResult := validationResult st; isLoading := isLoading st |}.
Definition setIsDragging (v : bool) (st : AppState) : AppState :=
  {| input := input st; isDragging := v; isCopied := isCopied st;
     validationResult := validationResult st; isLoading := isLoading st |}.
Definition setIsCopied (v : bool) (st : AppState) : AppState :=
  {| input := input st; isDragging := isDragging st; isCopied := v;
     validationResult := validationResult st; isLoading := isLoading st |}.
Definition setValidationResult (v : option ValidationResult) (st : AppState)
  : AppState :=
  {| input := input st; isDragging := isDragging st; isCopied := isCopied st;
     validationResult := v; isLoading := isLoading st |}.
Definition setIsLoading (v : bool) (st : AppState) : AppState :=
  {| input := input st; isDragging := isDragging st; isCopied := isCopied st;
     validationResult := validationResult st; isLoading := v |}.

(** Statements that update the component state and may throw. *)
Definition Eff (A : Type) : Type := AppState -> outcome A * AppState.

Definition ret {A} (a : A) : Eff A := fun st => (Returned a, st).
Definition throw {A} (msg : jsstring) : Eff A := fun st => (Thrown msg, st).
Definition bind {A B} (c : Eff A) (k : A -> Eff B) : Eff B :=
  fun st =>
    match c st with
    | (Returned a, st') => k a st'
    | (Thrown msg, st') => (Thrown msg, st')
    end.
Definition liftOutcome {A} (o : outcome A) : Eff A := fun st => (o, st).
Definition update (f : AppState -> AppState) : Eff unit :=
  fun st => (Returned tt, f st).

(** [try { body } catch (e) { handler }]: state updates made before the
    throw are kept. *)
Definition tryCatch {A} (body : Eff A) (handler : jsstring -> Eff A) : Eff A :=
  fun st =>
    match body st with
    | (Returned a, st') => (Returned a, st')
    | (Thrown msg, st') => handler msg st'
    end.

Declare Scope eff_scope.
Delimit Scope eff_scope with eff.
Notation "x <- c ;; k" := (bind c (fun x => k))
  (at level 61, c at next level, right associativity) : eff_scope.
Notation "c ;; k" := (bind c (fun _ => k))
  (at level 61, right associativity) : eff_scope.

(** ** The host: [fetch], the window and its location *)

(** A [Response]: [ok], [statusText] and what [response.json()] gives. *)
Record Response : Type := mkResponse {
  ok : bool;
  statusText : jsstring;
  response_json : outcome json
}.

Record Window : Type := mkWindow {
  location_origin : jsstring;
  location_pathname : jsstring;
  location_search : jsstring;
  clipboard : option jsstring
}.

Definition location_href (w : Window) : jsstring :=
  location_origin w ++ location_pathname w ++ location_search w.

(** The argument of [handleValidate]: a string, or the click event. *)
Inductive HandlerArg : Type :=
| ArgString (s : jsstring)
| ArgEvent.

(** An asynchronous handler has run to its end, or is suspended at
    [await fetch(url)] with the state the component shows meanwhile. *)
Inductive Phase : Type :=
| Finished (st : AppState)
| AwaitingFetch (url : jsstring) (st : AppState).

(** ** The [App] component *)

Module App.
Section Handlers.
Context {Schema : Type} `{ZodSchema Schema}.
Variable manifestSchema : Schema.

(** [JSON.parse]; a [SyntaxError] is a throw. *)
Variable JSON_parse : jsstring -> outcome json.
(** [JSON.stringify(value, null, space)]. *)
Variable JSON_stringify : json -> nat -> jsstring.
(** [await fetch(url)]; a rejected promise is a throw. *)
Variable fetch : jsstring -> outcome Response.
(** [LZString.compressToEncodedURIComponent]. *)
Variable compressToEncodedURIComponent : jsstring -> jsstring.
(** [LZString.decompressFromEncodedURIComponent]; [None] is [null]. *)
Variable decompressFromEncodedURIComponent : jsstring -> option jsstring.
(** [new URLSearchParams(search).get(name)]; [None] is [null]. *)
Variable searchParams_get : jsstring -> jsstring -> option jsstring.
(** [window.history.replaceState({}, title, url)]: the browser resolves
    [url] against the location and installs it, or throws, as it does
    with a [SecurityError] for a URL of another origin. *)
Variable history_replaceState : jsstring -> Window -> outcome Window.
(** [navigator.clipboard.writeText(text)], up to the return of the
    call; it throws where the page has no clipboard. *)
Variable clipboard_writeText : jsstring -> Window -> outcome Window.

Local Open Scope eff_scope.

(** The result [handleValidate] stores for a caught error. *)
Definition customFailure (msg : jsstring) : ValidationResult :=
  {| success := false;
     data := None;
     error := Some (mkZodError
                [ {| code := lit "custom"; path := []; message := msg |} ]);
     warning := None |}.

Definition currentInput (arg : HandlerArg) (st : AppState) : jsstring :=
  match arg with
  | ArgString s => s
  | ArgEvent => input st
  end.

Definition isUrl (trimmedInput : jsstring) : bool :=
  startsWith trimmedInput (lit "http://")
  || startsWith trimmedInput (lit "https://").

(** The URL branch of [handleValidate], from the awaited response on. *)
Definition urlHandling (fetched : outcome Response) : Eff json :=
  tryCatch
    (response <- liftOutcome fetched ;;
     if negb (ok response)
     then throw (lit "Failed to fetch: " ++ statusText response)
     else liftOutcome (response_json response))
    (fun e => throw (lit "Failed to fetch manifest: " ++ e)).

(** The JSON branch of [handleValidate]. *)
Definition jsonHandling (trimmedInput : jsstring) : Eff json :=
  tryCatch
    (dataToValidate <- liftOutcome (JSON_parse trimmedInput) ;;
     update (setInput (JSON_stringify dataToValidate 2)) ;;
     ret dataToValidate)
    (fun e => throw (lit "Invalid JSON format: " ++ e)).

(** The end of [handleValidate]: [validate] and store the result, or
    the [catch] clause; then the [finally] clause. *)
Definition settle (acquired : outcome json * AppState) : AppState :=
  let (r, st) := acquired in
  let st' :=
    match r with
    | Returned dataToValidate =>
        let result := validate manifestSchema dataToValidate in
        setValidationResult (Some result) st
    | Thrown msg => setValidationResult (Some (customFailure msg)) st
    end in
  setIsLoading false st'.

(** [handleValidate] up to its end or to [await fetch]. *)
Definition handleValidate_begin (arg : HandlerArg) (st : AppState) : Phase :=
  let st1 := setValidationResult None (setIsLoading true st) in
  let trimmedInput := trim (currentInput arg st) in
  if falsy trimmedInput then
    Finished
      (settle (throw (lit "Please enter JSON content or a URL") st1))
  else if isUrl trimmedInput then AwaitingFetch trimmedInput st1
  else Finished (settle (jsonHandling trimmedInput st1)).

(** [handleValidate] from the settled [fetch] on. *)
Definition handleValidate_resume (fetched : outcome Response)
    (st : AppState) : AppState :=
  settle (urlHandling fetched st).

Definition handleValidate (arg : HandlerArg) (st : AppState) : AppState :=
  match handleValidate_begin arg st with
  | Finished st' => st'
  | AwaitingFetch url st1 => handleValidate_resume (fetch url) st1
  end.

(** [handleShare]; the timer that resets [isCopied] is a later event.
    Nothing catches what [replaceState] or [writeText] throws: the
    handler stops there, with what it has done so far. *)
Definition handleShare (st : AppState) (w : Window) : AppState * Window :=
  let compressed := compressToEncodedURIComponent (input st) in
  let newUrl := location_pathname w ++ lit "?data=" ++ compressed in
  match history_replaceState newUrl w with
  | Thrown _ => (st, w)
  | Returned w1 =>
      match clipboard_writeText (location_href w1) w1 with
      | Thrown _ => (st, w1)
      | Returned w2 => (setIsCopied true st, w2)
      end
  end.

(** What the load-time effect decodes from the location, if anything. *)
Definition sharedText (w : Window) : option jsstring :=
  match searchParams_get (location_search w) (lit "data") with
  | Some data =>
      if falsy data then None
      else decompressFromEncodedURIComponent data
  | None => None
  end.

(** The effect run once after mount. *)
Definition loadEffect (w : Window) (st : AppState) : AppState :=
  match searchParams_get (location_search w) (lit "data") with
  | Some data =>
      if falsy data then st
      else
        match decompressFromEncodedURIComponent data with
        | Some decompressed =>
            if falsy decompressed then st
            else handleValidate (ArgString decompressed)
                   (setInput decompressed st)
        | None => st
        end
  | None => st
  end.

(** The [onload] callback of the [FileReader] in [handleDrop]. *)
Definition reader_onload (content : jsstring) (st : AppState) : AppState :=
  snd (tryCatch
         (parsed <- liftOutcome (JSON_parse content) ;;
          update (setInput (JSON_stringify parsed 2)))
         (fun _ => update (setInput content))
         st).

(** [handleDrop]: [file] is the text of the first dropped file. *)
Definition handleDrop (file : option jsstring) (st : AppState) : AppState :=
  let st1 := setIsDragging false st in
  match file with
  | Some content => reader_onload content st1
  | None => st1
  end.

(** *** The vocabulary of the properties of the handlers *)

(** What the text area shows once [handleValidate] has run on [text]
    while it showed [shown]: the JSON branch replaces it by the parsed
    text serialized again, every other branch leaves it. *)
Definition inputAfterValidate (text shown : jsstring) : jsstring :=
  let trimmedInput := trim text in
  if falsy trimmedInput || isUrl trimmedInput then shown
  else match JSON_parse trimmedInput with
       | Returned dataToValidate => JSON_stringify dataToValidate 2
       | Thrown _ => shown
       end.

(** The sources of failure of a validation attempt: empty input, a
    network error, a non-success status, a body or a text that does not
    parse, and a parsed document that violates the schema. *)
Inductive FailureSource (arg : HandlerArg) (st : AppState) : Prop :=
| EmptyInput :
    trim (currentInput arg st) = [] ->
    FailureSource arg st
| NetworkError msg :
    isUrl (trim (currentInput arg st)) = true ->
    fetch (trim (currentInput arg st)) = Thrown msg ->
    FailureSource arg st
| HttpStatus response :
    isUrl (trim (currentInput arg st)) = true ->
    fetch (trim (currentInput arg st)) = Returned response ->
    ok response = false ->
    FailureSource arg st
| BodyParseFailure response msg :
    isUrl (trim (currentInput arg st)) = true ->
    fetch (trim (currentInput arg st)) = Returned response ->
    ok response = true ->
    response_json response = Thrown msg ->
    FailureSource arg st
| TextParseFailure msg :
    trim (currentInput arg st) <> [] ->
    isUrl (trim (currentInput arg st)) = false ->
    JSON_parse (trim (currentInput arg st)) = Thrown msg ->
    FailureSource arg st
| BodySchemaViolation response manifest e :
    isUrl (trim (currentInput arg st)) = true ->
    fetch (trim (currentInput arg st)) = Returned response ->
    ok response = true ->
    response_json response = Returned manifest ->
    safeParse manifestSchema manifest = ParseFailure e ->
    FailureSource arg st
| TextSchemaViolation manifest e :
    trim (currentInput arg st) <> [] ->
    isUrl (trim (currentInput arg st)) = false ->
    JSON_parse (trim (currentInput arg st)) = Returned manifest ->
    safeParse manifestSchema manifest = ParseFailure e ->
    FailureSource arg st.

(** The contract of lz-string and [URLSearchParams] that sharing relies
    on: the [data] parameter of a query written by [handleShare] reads
    back as a non-empty string that decompresses to the shared text. *)
Definition ShareLinkRoundTrip : Prop :=
  forall text : jsstring,
    exists data : jsstring,
      searchParams_get
        (lit "?data=" ++ compressToEncodedURIComponent text) (lit "data")
      = Some data
      /\ falsy data = false
      /\ decompressFromEncodedURIComponent data = Some text.
(** *** The other handlers and effects of [App] *)

(** [String.prototype.endsWith]. *)
Definition endsWith (s suffix : jsstring) : bool :=
  startsWith (rev s) (rev suffix).

(** The first effect of [App], run whenever [input] changes: the URL for
    which it arms its 500 ms timer, if any.  Its cleanup disarms the
    timer when [input] changes again. *)
Definition autoFetchUrl (st : AppState) : option jsstring :=
  let trimmedInput := trim (input st) in
  let isUrl :=
    startsWith trimmedInput (lit "http://")
    || startsWith trimmedInput (lit "https://") in
  let isManifest := endsWith trimmedInput (lit "manifest.json") in
  if isUrl && isManifest then Some trimmedInput else None.

(** The callback of that timer, from the awaited response on: errors
    are ignored. *)
Definition autoFetch_fire (fetched : outcome Response) (st : AppState)
  : AppState :=
  snd (tryCatch
         (response <- liftOutcome fetched ;;
          if ok response then
            data <- liftOutcome (response_json response) ;;
            update (setInput (JSON_stringify data 2))
          else ret tt)
         (fun _ => ret tt)
         st).

Definition handleDragOver (st : AppState) : AppState := setIsDragging true st.

Definition handleDragLeave (st : AppState) : AppState :=
  setIsDragging false st.

(** [typeof v === "object"]: true of arrays, of objects and of [null]. *)
Definition typeofObject (v : json) : bool :=
  match v with
  | JNull | JArray _ | JObject _ => true
  | _ => false
  end.

Definition isNull (v : json) : bool :=
  match v with JNull => true | _ => false end.

(** [handlePaste]: the new state, and whether [preventDefault] was
    called; when it was not, the browser inserts the pasted text. *)
Definition handlePaste (pastedText : jsstring) (st : AppState)
  : AppState * bool :=
  match JSON_parse pastedText with
  | Returned parsed =>
      if typeofObject parsed && negb (isNull parsed)
      then (setInput (JSON_stringify parsed 2) st, true)
      else (st, false)
  | Thrown _ => (st, false)
  end.

(** [formatJson], the [onBlur] handler of the text area. *)
Definition formatJson (st : AppState) : AppState :=
  snd (tryCatch
         (parsed <- liftOutcome (JSON_parse (input st)) ;;
          update (setInput (JSON_stringify parsed 2)))
         (fun _ => ret tt)
         st).
End Handlers.

(** *** What [App] renders from its state *)

(** [value.toString()] of an array index. *)
Definition indexText (i : N) : jsstring :=
  lit (NilZero.string_of_uint (N.to_uint i)).

Definition segmentText (seg : pathSegment) : jsstring :=
  match seg with
  | Key k => k
  | Index i => indexText i
  end.

(** [path.join(".")]. *)
Fixpoint join (p : list pathSegment) : jsstring :=
  match p with
  | [] => []
  | [seg] => segmentText seg
  | seg :: rest => segmentText seg ++ lit "." ++ join rest
  end.

(** [issue.path.length > 0 ? issue.path.join(".") : "root"]. *)
Definition pathLabel (p : list pathSegment) : jsstring :=
  match p with
  | [] => lit "root"
  | _ :: _ => join p
  end.

(** One issue as the page lists it: the badge with its code, the label
    of its path and its message. *)
Record IssueRow : Type := mkRow {
  row_code : jsstring;
  row_path : jsstring;
  row_message : jsstring
}.

Definition issueRow (issue : ZodIssue) : IssueRow :=
  {| row_code := code issue;
     row_path := pathLabel (path issue);
     row_message := message issue |}.

(** The block below the card: nothing, or one of the three alerts.  The
    failure alert announces [error?.issues.length] and lists the issues
    when [error] is there. *)
Inductive ResultBlock : Type :=
| NoResult
| ValidWithWarnings (rows : list IssueRow)
| ValidManifest
| ValidationFailed (found : option nat) (rows : option (list IssueRow)).

Definition resultBlock (st : AppState) : ResultBlock :=
  match validationResult st with
  | None => NoResult
  | Some r =>
      if success r then
        match warning r with
        | Some w => ValidWithWarnings (map issueRow (issues w))
        | None => ValidManifest
        end
      else
        ValidationFailed
          (option_map (fun e => List.length (issues e)) (error r))
          (option_map (fun e => map issueRow (issues e)) (error r))
  end.

(** [disabled] of the validate button, and its caption. *)
Definition validateDisabled (st : AppState) : bool :=
  isLoading st || falsy (trim (input st)).

Definition validateCaption (st : AppState) : jsstring :=
  if isLoading st then lit "Validating..." else lit "Validate Manifest".

(** [disabled] of the share button. *)
Definition shareDisabled (st : AppState) : bool := falsy (trim (input st)).

(** The failure block of a caught error: one issue, of code custom,
    labelled root, with the message of the error. *)
Definition caughtBlock (msg : jsstring) : ResultBlock :=
  ValidationFailed (Some 1)
    (Some [ {| row_code := lit "custom"; row_path := lit "root";
               row_message := msg |} ]).

(** The block rendered for a stored result. *)
Definition blockOf (r : ValidationResult) : ResultBlock :=
  resultBlock (setValidationResult (Some r) initialState).
End App.
Import App.

(** A string is blank when [trim] has only white space to remove. *)
Definition whitespaceOnly (s : jsstring) : bool := forallb isWhiteSpace s.

(** An optional field of a result object is present. *)
Definition isPresent {A} (field : option A) : bool :=
  match field with Some _ => true | None => false end.

(** A result object with its [warning] field replaced. *)
Definition withWarning (w : option ZodError) (r : ValidationResult)
  : ValidationResult :=
  {| success := success r; data := data r; error := error r; warning := w |}.

(** A handler leaves the stored result and the loading flag alone. *)
Definition keepsResult (handler : AppState -> AppState) : Prop :=
  forall st,
    validationResult (handler st) = validationResult st
    /\ isLoading (handler st) = isLoading st.

(** ** A concrete host, for running the handlers on examples *)

Module Sample.

Definition quote : codeUnit := 34%N.
Definition newline : jsstring := [10%N].

Definition isJsonSpace (c : codeUnit) : bool :=
  ((c =? 32) || (c =? 9) || (c =? 10) || (c =? 13))%N.

Definition isDigit (c : codeUnit) : bool := ((48 <=? c) && (c <=? 57))%N.

Fixpoint skipSpace (s : jsstring) : jsstring :=
  match s with
  | c :: rest => if isJsonSpace c then skipSpace rest else s
  | [] => []
  end.

Fixpoint digits (acc : Z) (s : jsstring) : Z * jsstring :=
  match s with
  | c :: rest =>
      if isDigit c then digits (acc * 10 + Z.of_N (c - 48)) rest
      else (acc, s)
  | [] => (acc, [])
  end.

(** An integer literal without sign: no leading zero, no fraction and
    no exponent. *)
Definition natural (s : jsstring) : option (Z * jsstring) :=
  match s with
  | c :: rest =>
      if isDigit c then
        let (z, rest') := digits 0 s in
        match rest with
        | d :: _ => if N.eqb c 48 && isDigit d then None else
            match rest' with
            | e :: _ =>
                if (N.eqb e 46 || N.eqb e 101 || N.eqb e 69)%bool then None
                else Some (z, rest')
            | [] => Some (z, rest')
            end
        | [] => Some (z, rest')
        end
      else None
  | [] => None
  end.

(** The characters of a string literal up to its closing quote; escape
    sequences are outside the fragment. *)
Fixpoint stringBody (s : jsstring) : option (jsstring * jsstring) :=
  match s with
  | [] => None
  | c :: rest =>
      if N.eqb c quote then Some ([], rest)
      else if (N.eqb c 92 || N.ltb c 32)%bool then None
      else match stringBody rest with
           | Some (body, rest') => Some (c :: body, rest')
           | None => None
           end
  end.

Definition keyword (word : string) (v : json) (s : jsstring)
  : option (json * jsstring) :=
  if startsWith s (lit word)
  then Some (v, skipn (List.length (lit word)) s)
  else None.

Fixpoint parseValue (fuel : nat) (s : jsstring) {struct fuel}
  : option (json * jsstring) :=
  match fuel with
  | O => None
  | S n =>
      match skipSpace s with
      | [] => None
      | c :: rest =>
          if N.eqb c 110 then keyword "null" JNull (c :: rest)
          else if N.eqb c 116 then keyword "true" (JBool true) (c :: rest)
          else if N.eqb c 102 then keyword "false" (JBool false) (c :: rest)
          else if N.eqb c quote then
            match stringBody rest with
            | Some (body, rest') => Some (JString body, rest')
            | None => None
            end
          else if N.eqb c 91 then
            match skipSpace rest with
            | d :: rest' =>
                if N.eqb d 93 then Some (JArray [], rest')
                else match parseElements n rest with
                     | Some (xs, rest'') => Some (JArray xs, rest'')
                     | None => None
                     end
            | [] => None
            end
          else if N.eqb c 123 then
            match skipSpace rest with
            | d :: rest' =>
                if N.eqb d 125 then Some (JObject [], rest')
                else match parseMembers n rest with
                     | Some (ms, rest'') => Some (JObject ms, rest'')
                     | None => None
                     end
            | [] => None
            end
          else if N.eqb c 45 then
            match natural rest with
            | Some (z, rest') => Some (JNumber (- z), rest')
            | None => None
            end
          else
            match natural (c :: rest) with
            | Some (z, rest') => Some (JNumber z, rest')
            | None => None
            end
      end
  end
with parseElements (fuel : nat) (s : jsstring) {struct fuel}
  : option (list json * jsstring) :=
  match fuel with
  | O => None
  | S n =>
      match parseValue n s with
      | Some (v, rest) =>
          match skipSpace rest with
          | c :: rest' =>
              if N.eqb c 44 then
                match parseElements n rest' with
                | Some (vs, rest'') => Some (v :: vs, rest'')
                | None => None
                end
              else if N.eqb c 93 then Some ([v], rest')
              else None
          | [] => None
          end
      | None => None
      end
  end
with parseMembers (fuel : nat) (s : jsstring) {struct fuel}
  : option (list (jsstring * json) * jsstring) :=
  match fuel with
  | O => None
  | S n =>
      match skipSpace s with
      | c :: rest =>
          if N.eqb c quote then
            match stringBody rest with
            | Some (k, rest1) =>
                match skipSpace rest1 with
                | colon :: rest2 =>
                    if N.eqb colon 58 then
                      match parseValue n rest2 with
                      | Some (v, rest3) =>
                          match skipSpace rest3 with
                          | d :: rest4 =>
                              if N.eqb d 44 then
                                match parseMembers n rest4 with
                                | Some (ms, rest5) =>
                                    Some ((k, v) :: ms, rest5)
                                | None => None
                                end
                              else if N.eqb d 125 then Some ([(k, v)], rest4)
                              else None
                          | [] => None
                          end
                      | None => None
                      end
                    else None
                | [] => None
                end
            | None => None
            end
          else None
      | [] => None
      end
  end.

(** [JSON.parse] on the fragment of JSON made of [null], booleans,
    small integers, strings without escapes, arrays and objects with
    distinct keys. *)
Definition JSON_parse (text : jsstring) : outcome json :=
  match parseValue (2 * List.length text + 2) text with
  | Some (v, rest) =>
      match skipSpace rest with
      | [] => Returned v
      | _ :: _ => Thrown (lit "Unexpected non-whitespace character")
      end
  | None => Thrown (lit "Unexpected token")
  end.

Definition quoted (s : jsstring) : jsstring := quote :: s ++ [quote].

Fixpoint stringify (gap indent : jsstring) (v : json) : jsstring :=
  match v with
  | JNull => lit "null"
  | JBool true => lit "true"
  | JBool false => lit "false"
  | JNumber n => lit (NilZero.string_of_int (Z.to_int n))
  | JString s => quoted s
  | JArray [] => lit "[]"
  | JArray xs =>
      let inner := indent ++ gap in
      lit "[" ++ newline
      ++ (fix items (l : list json) : jsstring :=
            match l with
            | [] => []
            | [x] => inner ++ stringify gap inner x
            | x :: rest =>
                inner ++ stringify gap inner x ++ lit "," ++ newline
                ++ items rest
            end) xs
      ++ newline ++ indent ++ lit "]"
  | JObject [] => lit "{}"
  | JObject ms =>
      let inner := indent ++ gap in
      lit "{" ++ newline
      ++ (fix items (l : list (jsstring * json)) : jsstring :=
            match l with
            | [] => []
            | [(k, x)] =>
                inner ++ quoted k ++ lit ": " ++ stringify gap inner x
            | (k, x) :: rest =>
                inner ++ quoted k ++ lit ": " ++ stringify gap inner x
                ++ lit "," ++ newline ++ items rest
            end) ms
      ++ newline ++ indent ++ lit "}"
  end.

(** [JSON.stringify(value, null, space)] on the same fragment. *)
Definition JSON_stringify (v : json) (space : nat) : jsstring :=
  stringify (repeat 32%N space) [] v.

(** A codec that prefixes one character: its output is never empty and
    decoding the empty string gives [null]. *)
Definition compressToEncodedURIComponent (s : jsstring) : jsstring :=
  lit "Q" ++ s.
Definition decompressFromEncodedURIComponent (s : jsstring)
  : option jsstring :=
  match s with
  | [] => None
  | _ :: rest => Some rest
  end.

Definition questionMark : codeUnit := 63%N.

(** The path of a relative URL ends at its first [?]. *)
Fixpoint pathOf (url : jsstring) : jsstring :=
  match url with
  | [] => []
  | c :: rest => if N.eqb c questionMark then [] else c :: pathOf rest
  end.

(** The query of a relative URL starts at its first [?]. *)
Fixpoint queryOf (url : jsstring) : jsstring :=
  match url with
  | [] => []
  | c :: rest => if N.eqb c questionMark then url else queryOf rest
  end.

(** A browser that installs the path and the query of a root-relative
    URL and refuses a URL that starts with two slashes. *)
Definition history_replaceState (url : jsstring) (w : Window)
  : outcome Window :=
  if startsWith url (lit "//") then Thrown (lit "SecurityError")
  else Returned {| location_origin := location_origin w;
                   location_pathname := pathOf url;
                   location_search := queryOf url;
                   clipboard := clipboard w |}.

(** A page with a clipboard. *)
Definition clipboard_writeText (text : jsstring) (w : Window)
  : outcome Window :=
  Returned {| location_origin := location_origin w;
              location_pathname := location_pathname w;
              location_search := location_search w;
              clipboard := Some text |}.

(** Queries of the form [?name=value], read without decoding. *)
Definition searchParams_get (search name : jsstring) : option jsstring :=
  let prefix := lit "?" ++ name ++ lit "=" in
  if startsWith search prefix
  then Some (skipn (List.length prefix) search)
  else None.

(** A manifest schema with the basic fields of a Stremio manifest. *)
Definition catalogShape : shape :=
  SObject (FCons (lit "type") true SString
          (FCons (lit "id") true SString
          (FCons (lit "name") false SString FNil))).

Definition manifestShape : shape :=
  SObject (FCons (lit "id") true SString
          (FCons (lit "name") true SString
          (FCons (lit "version") true SString
          (FCons (lit "description") false SString
          (FCons (lit "resources") true (SArray SString)
          (FCons (lit "types") true (SArray SString)
          (FCons (lit "catalogs") false (SArray catalogShape)
          (FCons (lit "behaviorHints") false
             (SObject (FCons (lit "adult") false SBoolean FNil))
           FNil)))))))).

Definition manifestSchema : SpecSchema := permissive manifestShape.

(** A manifest that matches the schema exactly. *)
Definition goodManifest : json :=
  JObject [ (lit "id", JString (lit "org.myaddon"));
            (lit "name", JString (lit "My addon"));
            (lit "version", JString (lit "1.0.0"));
            (lit "resources", JArray [JString (lit "stream")]);
            (lit "types", JArray [JString (lit "movie")]);
            (lit "catalogs",
             JArray [JObject [ (lit "type", JString (lit "movie"));
                               (lit "id", JString (lit "top")) ]]) ].

(** The same manifest with two undeclared fields at top level and one
    inside a catalog. *)
Definition extraManifest : json :=
  JObject [ (lit "id", JString (lit "org.myaddon"));
            (lit "name", JString (lit "My addon"));
            (lit "version", JString (lit "1.0.0"));
            (lit "resources", JArray [JString (lit "stream")]);
            (lit "types", JArray [JString (lit "movie")]);
            (lit "catalogs",
             JArray [JObject [ (lit "type", JString (lit "movie"));
                               (lit "id", JString (lit "top"));
                               (lit "color", JString (lit "red")) ]]);
            (lit "author", JString (lit "me"));
            (lit "homepage", JNull) ].

(** A manifest without [version] and with a number as a type name. *)
Definition badManifest : json :=
  JObject [ (lit "id", JString (lit "org.myaddon"));
            (lit "name", JString (lit "My addon"));
            (lit "resources", JArray [JString (lit "stream")]);
            (lit "types", JArray [JString (lit "movie"); JNumber 7]) ].

Definition manifestUrl : jsstring := lit "https://example.com/manifest.json".
Definition brokenUrl : jsstring := lit "https://example.com/broken.json".
Definition missingUrl : jsstring := lit "https://example.com/missing.json".

(** A network with three reachable documents. *)
Definition fetch (url : jsstring) : outcome Response :=
  if jsstring_eqb url manifestUrl then
    Returned {| ok := true; statusText := lit "OK";
                response_json := Returned goodManifest |}
  else if jsstring_eqb url brokenUrl then
    Returned {| ok := true; statusText := lit "OK";
                response_json := Thrown (lit "Unexpected end of JSON input") |}
  else if jsstring_eqb url missingUrl then
    Returned {| ok := false; statusText := lit "Not Found";
                response_json := Thrown (lit "Unexpected token") |}
  else Thrown (lit "Failed to fetch").

Definition window : Window :=
  {| location_origin := lit "https://validator.example";
     location_pathname := lit "/";
     location_search := [];
     clipboard := None |}.

Definition handleValidate : HandlerArg -> AppState -> AppState :=
  handleValidate manifestSchema JSON_parse JSON_stringify fetch.
Definition handleValidate_begin : HandlerArg -> AppState -> Phase :=
  handleValidate_begin manifestSchema JSON_parse JSON_stringify.
Definition handleShare : AppState -> Window -> AppState * Window :=
  handleShare compressToEncodedURIComponent history_replaceState
    clipboard_writeText.

(** The same page under a path that starts with two slashes. *)
Definition foreignWindow : Window :=
  {| location_origin := lit "https://validator.example";
     location_pathname := lit "//other.example/x";
     location_search := [];
     clipboard := None |}.
Definition loadEffect : Window -> AppState -> AppState :=
  loadEffect manifestSchema JSON_parse JSON_stringify fetch
    decompressFromEncodedURIComponent searchParams_get.
Definition handleDrop : option jsstring -> AppState -> AppState :=
  handleDrop JSON_parse JSON_stringify.
Definition sharedText : Window -> option jsstring :=
  sharedText decompressFromEncodedURIComponent searchParams_get.

(** A component that shows a compact JSON text. *)
Definition compactText : jsstring := lit "[1]".
Definition compactState : AppState := setInput compactText initialState.

(** The same text as [JSON.stringify] lays it out with two spaces. *)
Definition formattedText : jsstring :=
  lit "[" ++ newline ++ lit "  1" ++ newline ++ lit "]".

(** A component that shows the result of an earlier attempt and whose
    input is now the address of a manifest. *)
Definition validatedState : AppState :=
  setValidationResult (Some (Success goodManifest))
    (setInput manifestUrl initialState).

(** Blank input: a space, a tab, a line feed and a no-break space. *)
Definition blankText : jsstring := [32; 9; 10; 160]%N.

Definition formatJson : AppState -> AppState :=
  formatJson JSON_parse JSON_stringify.
Definition handlePaste : jsstring -> AppState -> AppState * bool :=
  handlePaste JSON_parse JSON_stringify.
Definition reader_onload : jsstring -> AppState -> AppState :=
  reader_onload JSON_parse JSON_stringify.

(** A component whose input is the address of a manifest that does not
    exist. *)
Definition missingState : AppState := setInput missingUrl initialState.

End Sample.

(** * Properties *)

(** ** The validator *)

Section ValidationFacts.
Context {Schema : Type} `{ZodSchema Schema}.
Variable manifestSchema : Schema.

(** C1. A failed permissive match gives Failure with the issues of that
    match; when both matches succeed the result is Success with the
    parsed data; when only the strict match fails the result is
    Success-with-warnings with the issues of the strict match. *)
Theorem validate_outcome (manifest : json) :
  (forall e,
      safeParse manifestSchema manifest = ParseFailure e ->
      validate manifestSchema manifest = Failure e)
  /\ (forall d d',
      safeParse manifestSchema manifest = ParseSuccess d ->
      safeParse (strict manifestSchema) manifest = ParseSuccess d' ->
      validate manifestSchema manifest = Success d)
  /\ (forall d w,
      safeParse manifestSchema manifest = ParseSuccess d ->
      safeParse (strict manifestSchema) manifest = ParseFailure w ->
      validate manifestSchema manifest = SuccessWithWarnings d w).
Proof.
  unfold validate; repeat split.
  - intros e Hp. now rewrite Hp.
  - intros d d' Hp Hs. now rewrite Hp, Hs.
  - intros d w Hp Hs. now rewrite Hp, Hs.
Qed.

(** C9. In every result of [validate] the error is present exactly when
    success is false, the data exactly when success is true, and a
    warning only when success is true. *)
Theorem validate_shape (manifest : json) :
  let r := validate manifestSchema manifest in
  isPresent (error r) = negb (success r)
  /\ isPresent (data r) = success r
  /\ implb (isPresent (warning r)) (success r) = true.
Proof.
  unfold validate.
  destruct (safeParse manifestSchema manifest) as [d | e]; cbn.
  - destruct (safeParse (strict manifestSchema) manifest); cbn; auto.
  - auto.
Qed.

(** C10. The single-pass and the two-pass [validate] agree on the
    success flag, on the data and on the error; the two-pass result is
    the single-pass result with, on success only, a warning possibly
    added. *)
Theorem validate_extends_v1 (manifest : json) :
  let old := asValidationResult (validate_v1 manifestSchema manifest) in
  let new := validate manifestSchema manifest in
  success new = success old
  /\ data new = data old
  /\ error new = error old
  /\ warning old = None
  /\ new = withWarning (warning new) old
  /\ implb (isPresent (warning new)) (success new) = true.
Proof.
  unfold validate, validate_v1.
  destruct (safeParse manifestSchema manifest) as [d | e]; cbn.
  - destruct (safeParse (strict manifestSchema) manifest); cbn;
      repeat split; reflexivity.
  - repeat split; reflexivity.
Qed.

End ValidationFacts.

(** ** The schema engine *)

Lemma unknownKeys_length fs p members :
  List.length (unknownKeys fs p members)
  = List.length (filter (fun m => negb (declared (fst m) fs)) members).
Proof.
  induction members as [| [k v] rest IH]; cbn; [reflexivity |].
  destruct (declared k fs); cbn; now rewrite IH.
Qed.

Lemma checkElements_strict_length e p xs :
  (forall p' v,
      List.length (check true e p' v)
      = List.length (check false e p' v) + undeclaredFields e v) ->
  forall i,
    List.length (checkElements (check true e) p i xs)
    = List.length (checkElements (check false e) p i xs)
      + list_sum (map (undeclaredFields e) xs).
Proof.
  intros He. induction xs as [| x rest IH]; intros i; cbn; [reflexivity |].
  rewrite !length_app, He, IH. unfold list_sum. lia.
Qed.

(** The strict match reports the issues of the permissive match and one
    more for every undeclared field. *)
Lemma check_strict_length :
  (forall s p v,
      List.length (check true s p v)
      = List.length (check false s p v) + undeclaredFields s v)
  /\ (forall fs p members,
      List.length (checkFields true fs p members)
      = List.length (checkFields false fs p members)
        + undeclaredBelow fs members).
Proof.
  apply shape_fieldList_ind.
  - intros p [] ; reflexivity.
  - intros p [] ; reflexivity.
  - intros p [] ; reflexivity.
  - intros e IHe p v. destruct v; try reflexivity.
    cbn. now apply checkElements_strict_length.
  - intros fs IHfs p v. destruct v; try reflexivity.
    cbn. rewrite !length_app, IHfs, unknownKeys_length. cbn. lia.
  - intros p members. reflexivity.
  - intros k req t IHt rest IHrest p members. cbn.
    rewrite !length_app, IHrest.
    destruct (lookup k members) as [v |].
    + rewrite IHt. lia.
    + lia.
Qed.

Lemma checkElements_In f p xs :
  forall n start x issue,
    nth_error xs n = Some x ->
    In issue (f (p ++ [Index (start + N.of_nat n)%N]) x) ->
    In issue (checkElements f p start xs).
Proof.
  induction xs as [| y rest IH]; intros n start x issue Hn Hin.
  - destruct n; discriminate.
  - cbn. apply in_or_app. destruct n as [| n].
    + injection Hn as <-. left.
      now rewrite N.add_0_r in Hin.
    + right. apply IH with (n := n) (x := x); [exact Hn |].
      now replace (N.succ start + N.of_nat n)%N
        with (start + N.of_nat (S n))%N by lia.
Qed.

Lemma checkFields_missing_In b fs k t p members :
  HasField fs k true t ->
  lookup k members = None ->
  In (missingField (p ++ [Key k])) (checkFields b fs p members).
Proof.
  intros Hf Hl. remember true as req eqn:Hreq.
  induction Hf as [k req t rest | k req t k' req' t' rest Hf IH]; cbn.
  - subst req. rewrite Hl. now left.
  - apply in_or_app. right. now apply IH.
Qed.

Lemma checkFields_field_In b fs k req t p members v issue :
  HasField fs k req t ->
  lookup k members = Some v ->
  In issue (check b t (p ++ [Key k]) v) ->
  In issue (checkFields b fs p members).
Proof.
  intros Hf Hl Hin.
  induction Hf as [k req t rest | k req t k' req' t' rest Hf IH]; cbn.
  - rewrite Hl. apply in_or_app. now left.
  - apply in_or_app. right. now apply IH.
Qed.

(** Every violation is reported, in either mode, by an issue at the path
    of the offending field. *)
Lemma check_reports_violation s v p :
  Violates s v p ->
  forall b p0, exists issue, In issue (check b s p0 v) /\ path issue = p0 ++ p.
Proof.
  induction 1 as [s v Hty | e xs n x p Hn Hv IH
                  | fs members k t Hf Hl | fs members k req t v p Hf Hl Hv IH];
    intros b p0.
  - exists (invalidType p0). rewrite app_nil_r. split; [| reflexivity].
    destruct s, v; try discriminate Hty; cbn; now left.
  - destruct (IH b (p0 ++ [Index (N.of_nat n)])) as [issue [Hin Hp]].
    exists issue. split.
    + cbn. eapply checkElements_In with (n := n) (start := 0%N);
        [exact Hn | exact Hin].
    + rewrite Hp, <- app_assoc. reflexivity.
  - exists (missingField (p0 ++ [Key k])). split; [| reflexivity].
    cbn. apply in_or_app. left. now apply checkFields_missing_In with (t := t).
  - destruct (IH b (p0 ++ [Key k])) as [issue [Hin Hp]].
    exists issue. split.
    + cbn. apply in_or_app. left.
      now apply checkFields_field_In with (k := k) (req := req) (t := t) (v := v).
    + rewrite Hp, <- app_assoc. reflexivity.
Qed.

(** C2. A document that conforms to the manifest schema and has at least
    one undeclared field, at top level or nested, validates to
    Success-with-warnings, with as many issues in the warning as there
    are undeclared fields. *)
Theorem undeclared_fields_warn (manifestShape : shape) (manifest : json) :
  conforms manifestShape manifest ->
  1 <= undeclaredFields manifestShape manifest ->
  exists w,
    validate (permissive manifestShape) manifest
    = SuccessWithWarnings manifest w
    /\ List.length (issues w) = undeclaredFields manifestShape manifest.
Proof.
  intros Hc Hn.
  pose proof (proj1 check_strict_length manifestShape [] manifest) as Hlen.
  unfold conforms in Hc. rewrite Hc in Hlen. cbn in Hlen.
  unfold validate, permissive; cbn. unfold specSafeParse; cbn.
  rewrite Hc.
  destruct (check true manifestShape [] manifest) as [| i rest] eqn:Hs.
  - cbn in Hlen. lia.
  - exists {| issues := i :: rest |}. split; [reflexivity | exact Hlen].
Qed.

(** C3. A document that violates a required-field or a type constraint
    of the manifest schema validates to Failure, and some issue of the
    error has the path of the offending field. *)
Theorem violation_fails (manifestShape : shape) (manifest : json)
    (offending : list pathSegment) :
  Violates manifestShape manifest offending ->
  exists e,
    validate (permissive manifestShape) manifest = Failure e
    /\ exists issue, In issue (issues e) /\ path issue = offending.
Proof.
  intros Hv.
  destruct (check_reports_violation Hv false []) as [issue [Hin Hp]].
  unfold validate, permissive; cbn. unfold specSafeParse; cbn.
  destruct (check false manifestShape [] manifest) as [| i rest] eqn:Hc.
  - destruct Hin.
  - exists {| issues := i :: rest |}. split; [reflexivity |].
    exists issue. split; [exact Hin | exact Hp].
Qed.

(** ** The handlers of [App] *)

Lemma trimStart_whitespaceOnly s :
  whitespaceOnly s = true -> trimStart s = [].
Proof.
  induction s as [| c s IH]; cbn; [reflexivity |].
  intros Hw. apply andb_prop in Hw as [Hc Hs]. rewrite Hc. now apply IH.
Qed.

Lemma trim_whitespaceOnly s : whitespaceOnly s = true -> trim s = [].
Proof.
  intros Hw. unfold trim. now rewrite trimStart_whitespaceOnly.
Qed.

Lemma falsy_nil_iff (s : jsstring) : falsy s = true <-> s = [].
Proof. destruct s; cbn; split; congruence. Qed.

Lemma falsy_false_iff (s : jsstring) : falsy s = false <-> s <> [].
Proof. destruct s; cbn; split; congruence. Qed.

Section AppFacts.
Context {Schema : Type} `{ZodSchema Schema}.
Variable manifestSchema : Schema.
Variable JSON_parse : jsstring -> outcome json.
Variable JSON_stringify : json -> nat -> jsstring.
Variable fetch : jsstring -> outcome Response.
Variable compressToEncodedURIComponent : jsstring -> jsstring.
Variable decompressFromEncodedURIComponent : jsstring -> option jsstring.
Variable searchParams_get : jsstring -> jsstring -> option jsstring.
Variable history_replaceState : jsstring -> Window -> outcome Window.
Variable clipboard_writeText : jsstring -> Window -> outcome Window.

#[local] Abbreviation handleValidate :=
  (handleValidate manifestSchema JSON_parse JSON_stringify fetch).
#[local] Abbreviation handleValidate_begin :=
  (handleValidate_begin manifestSchema JSON_parse JSON_stringify).
#[local] Abbreviation handleDrop := (handleDrop JSON_parse JSON_stringify).
#[local] Abbreviation handleShare :=
  (handleShare compressToEncodedURIComponent history_replaceState
     clipboard_writeText).
#[local] Abbreviation sharedText :=
  (sharedText decompressFromEncodedURIComponent searchParams_get).
#[local] Abbreviation loadEffect :=
  (loadEffect manifestSchema JSON_parse JSON_stringify fetch
     decompressFromEncodedURIComponent searchParams_get).
#[local] Abbreviation FailureSource :=
  (FailureSource manifestSchema JSON_parse fetch).
#[local] Abbreviation inputAfterValidate :=
  (inputAfterValidate JSON_parse JSON_stringify).
#[local] Abbreviation ShareLinkRoundTrip :=
  (ShareLinkRoundTrip compressToEncodedURIComponent
     decompressFromEncodedURIComponent searchParams_get).

Lemma isUrl_not_empty t : isUrl t = true -> falsy t = false.
Proof. destruct t; [discriminate | reflexivity]. Qed.

(** The state [handleValidate] ends in, branch by branch. *)
Lemma handleValidate_cases arg st :
  let st1 := setValidationResult None (setIsLoading true st) in
  let t := trim (currentInput arg st) in
  handleValidate arg st =
    if falsy t then
      settle manifestSchema
        (Thrown (lit "Please enter JSON content or a URL"), st1)
    else if isUrl t then
      settle manifestSchema (urlHandling (fetch t) st1)
    else settle manifestSchema (jsonHandling JSON_parse JSON_stringify t st1).
Proof.
  cbv zeta. unfold App.handleValidate, App.handleValidate_begin.
  destruct (falsy (trim (currentInput arg st))); [reflexivity |].
  destruct (isUrl (trim (currentInput arg st))); reflexivity.
Qed.

Lemma settle_frame acquired :
  isLoading (settle manifestSchema acquired) = false
  /\ input (settle manifestSchema acquired) = input (snd acquired)
  /\ isDragging (settle manifestSchema acquired) = isDragging (snd acquired)
  /\ isCopied (settle manifestSchema acquired) = isCopied (snd acquired)
  /\ validationResult (settle manifestSchema acquired)
     = Some match fst acquired with
            | Returned manifest => validate manifestSchema manifest
            | Thrown msg => customFailure msg
            end.
Proof. destruct acquired as [[manifest | msg] st]; cbn; auto. Qed.

Lemma urlHandling_state fetched st : snd (urlHandling fetched st) = st.
Proof.
  unfold urlHandling, tryCatch, bind, liftOutcome, throw.
  destruct fetched as [response | msg]; [| reflexivity].
  destruct (ok response); cbn; [| reflexivity].
  destruct (response_json response); reflexivity.
Qed.

Lemma jsonHandling_state t st :
  snd (jsonHandling JSON_parse JSON_stringify t st)
  = match JSON_parse t with
    | Returned manifest => setInput (JSON_stringify manifest 2) st
    | Thrown _ => st
    end.
Proof.
  unfold jsonHandling, tryCatch, bind, liftOutcome, throw, ret, update.
  destruct (JSON_parse t); reflexivity.
Qed.

(** What the text area shows after [handleValidate]. *)
Lemma handleValidate_input arg st :
  input (handleValidate arg st)
  = inputAfterValidate (currentInput arg st) (input st).
Proof.
  rewrite handleValidate_cases. unfold App.inputAfterValidate.
  destruct (falsy (trim (currentInput arg st))); cbn [orb].
  - now rewrite (proj1 (proj2 (settle_frame _))).
  - destruct (isUrl (trim (currentInput arg st))).
    + rewrite (proj1 (proj2 (settle_frame _))), urlHandling_state.
      reflexivity.
    + rewrite (proj1 (proj2 (settle_frame _))), jsonHandling_state.
      destruct (JSON_parse (trim (currentInput arg st))); reflexivity.
Qed.

(** Every attempt ends with a stored result and without the loading
    flag, and does not touch the drag and copy flags. *)
Lemma handleValidate_settles arg st :
  (exists r, validationResult (handleValidate arg st) = Some r)
  /\ isLoading (handleValidate arg st) = false
  /\ isDragging (handleValidate arg st) = isDragging st
  /\ isCopied (handleValidate arg st) = isCopied st.
Proof.
  rewrite handleValidate_cases.
  destruct (falsy (trim (currentInput arg st)));
    [| destruct (isUrl (trim (currentInput arg st)))];
    match goal with
    | |- context [settle _ ?a] =>
        destruct (settle_frame a) as (Hl & _ & Hd & Hc & Hr)
    end;
    rewrite Hl, Hd, Hc, Hr;
    rewrite ?urlHandling_state, ?jsonHandling_state;
    repeat split; eauto;
    destruct (JSON_parse (trim (currentInput arg st))); reflexivity.
Qed.

(** The stored result depends on the text and on the host only. *)
Lemma handleValidate_result arg st :
  let t := trim (currentInput arg st) in
  validationResult (handleValidate arg st)
  = Some
      (if falsy t then
         customFailure (lit "Please enter JSON content or a URL")
       else if isUrl t then
         match fetch t with
         | Returned response =>
             if ok response then
               match response_json response with
               | Returned manifest => validate manifestSchema manifest
               | Thrown msg =>
                   customFailure (lit "Failed to fetch manifest: " ++ msg)
               end
             else customFailure
                    (lit "Failed to fetch manifest: "
                     ++ lit "Failed to fetch: " ++ statusText response)
         | Thrown msg =>
             customFailure (lit "Failed to fetch manifest: " ++ msg)
         end
       else
         match JSON_parse t with
         | Returned manifest => validate manifestSchema manifest
         | Thrown msg => customFailure (lit "Invalid JSON format: " ++ msg)
         end).
Proof.
  cbv zeta. rewrite handleValidate_cases.
  destruct (falsy (trim (currentInput arg st))); [reflexivity |].
  destruct (isUrl (trim (currentInput arg st))).
  - rewrite (proj2 (proj2 (proj2 (proj2 (settle_frame _))))).
    f_equal. unfold urlHandling, tryCatch, bind, liftOutcome, throw.
    destruct (fetch (trim (currentInput arg st))) as [response | msg];
      [| reflexivity].
    destruct (ok response); cbn; [| reflexivity].
    destruct (response_json response); reflexivity.
  - rewrite (proj2 (proj2 (proj2 (proj2 (settle_frame _))))).
    f_equal. unfold jsonHandling, tryCatch, bind, liftOutcome, throw, ret,
      update.
    destruct (JSON_parse (trim (currentInput arg st))); reflexivity.
Qed.

(** C5. For an input that is empty or made of white space only,
    [handleValidate] stores a Failure whose error has exactly one issue,
    at the root path. *)
Theorem blank_input_fails (arg : HandlerArg) (st : AppState) :
  whitespaceOnly (currentInput arg st) = true ->
  exists issue,
    validationResult (handleValidate arg st)
    = Some (Failure {| issues := [issue] |})
    /\ path issue = []
    /\ code issue = lit "custom".
Proof.
  intros Hw. pose proof (handleValidate_result arg st) as Hr.
  cbv zeta in Hr. rewrite (trim_whitespaceOnly _ Hw) in Hr. cbn in Hr.
  eexists. split; [exact Hr |]. split; reflexivity.
Qed.

(** C6. When the text of a dropped file parses as JSON, the input
    becomes the parsed value serialized with an indentation of two
    spaces; when it does not parse, the input becomes the text itself. *)
Theorem dropped_file_input (content : jsstring) (st : AppState) :
  (forall parsed,
      JSON_parse content = Returned parsed ->
      input (handleDrop (Some content) st) = JSON_stringify parsed 2)
  /\ (forall msg,
      JSON_parse content = Thrown msg ->
      input (handleDrop (Some content) st) = content).
Proof.
  unfold App.handleDrop, reader_onload, tryCatch, bind, liftOutcome,
    update.
  split; intros ? Hp; rewrite Hp; reflexivity.
Qed.

(** C7. Whatever the source of the failure of an attempt, the stored
    result is a Failure: success false, an issue list, nothing else. *)
Theorem failures_normalized (arg : HandlerArg) (st : AppState) :
  FailureSource arg st ->
  exists e,
    validationResult (handleValidate arg st) = Some (Failure e)
    /\ isLoading (handleValidate arg st) = false.
Proof.
  intros Hsrc.
  destruct (handleValidate_settles arg st) as (_ & Hl & _).
  pose proof (handleValidate_result arg st) as Hr. cbv zeta in Hr.
  rewrite Hl, Hr. clear Hl Hr.
  destruct Hsrc as [Ht | msg Hu Hf | response Hu Hf Hok
                    | response msg Hu Hf Hok Hj | msg Hne Hu Hp
                    | response manifest e Hu Hf Hok Hj Hs
                    | manifest e Hne Hu Hp Hs].
  - rewrite Ht. cbn [falsy]. eexists; split; reflexivity.
  - rewrite (isUrl_not_empty _ Hu), Hu, Hf. eexists; split; reflexivity.
  - rewrite (isUrl_not_empty _ Hu), Hu, Hf, Hok. eexists; split; reflexivity.
  - rewrite (isUrl_not_empty _ Hu), Hu, Hf, Hok, Hj. eexists; split; reflexivity.
  - rewrite (proj2 (falsy_false_iff _) Hne), Hu, Hp. eexists; split; reflexivity.
  - rewrite (isUrl_not_empty _ Hu), Hu, Hf, Hok, Hj.
    unfold validate. rewrite Hs. eexists; split; reflexivity.
  - rewrite (proj2 (falsy_false_iff _) Hne), Hu, Hp.
    unfold validate. rewrite Hs. eexists; split; reflexivity.
Qed.

(** The sources listed are all there are: an attempt whose stored result
    is not a success has one of them. *)
Lemma failure_has_source arg st r :
  validationResult (handleValidate arg st) = Some r ->
  success r = false ->
  FailureSource arg st.
Proof.
  pose proof (handleValidate_result arg st) as Hr. cbv zeta in Hr.
  rewrite Hr. clear Hr. intros Heq Hfail.
  destruct (falsy (trim (currentInput arg st))) eqn:Ht.
  - apply EmptyInput. now apply falsy_nil_iff.
  - apply falsy_false_iff in Ht.
    destruct (isUrl (trim (currentInput arg st))) eqn:Hu.
    + destruct (fetch (trim (currentInput arg st))) as [response | msg] eqn:Hf.
      * destruct (ok response) eqn:Hok.
        -- destruct (response_json response) as [manifest | msg] eqn:Hj.
           ++ injection Heq as <-.
              unfold validate in Hfail.
              destruct (safeParse manifestSchema manifest) as [d | e] eqn:Hs.
              ** destruct (safeParse (strict manifestSchema) manifest);
                   discriminate.
              ** eapply BodySchemaViolation; eauto.
           ++ eapply BodyParseFailure; eauto.
        -- eapply HttpStatus; eauto.
      * eapply NetworkError; eauto.
    + destruct (JSON_parse (trim (currentInput arg st)))
        as [manifest | msg] eqn:Hp.
      * injection Heq as <-.
        unfold validate in Hfail.
        destruct (safeParse manifestSchema manifest) as [d | e] eqn:Hs.
        -- destruct (safeParse (strict manifestSchema) manifest);
             discriminate.
        -- eapply TextSchemaViolation; eauto.
      * eapply TextParseFailure; eauto.
Qed.

(** C8, as the code has it.  An attempt starts by clearing the stored
    result and raising the loading flag: that is the state shown while
    the fetch is awaited.  It always ends with a stored result and the
    loading flag lowered, leaves the drag and copy flags as they were,
    and its result does not depend on the result stored before. *)
Theorem attempt_clears_then_settles (arg : HandlerArg) (st : AppState) :
  (forall url st1,
      handleValidate_begin arg st = AwaitingFetch url st1 ->
      st1 = setValidationResult None (setIsLoading true st))
  /\ (exists r, validationResult (handleValidate arg st) = Some r)
  /\ isLoading (handleValidate arg st) = false
  /\ isDragging (handleValidate arg st) = isDragging st
  /\ isCopied (handleValidate arg st) = isCopied st
  /\ input (handleValidate arg st)
     = inputAfterValidate (currentInput arg st) (input st)
  /\ (forall prior,
      validationResult (handleValidate arg (setValidationResult prior st))
      = validationResult (handleValidate arg st)).
Proof.
  split.
  - intros url st1. unfold App.handleValidate_begin.
    destruct (falsy (trim (currentInput arg st))); [discriminate |].
    destruct (isUrl (trim (currentInput arg st))); [| discriminate].
    now intros [= _ <-].
  - destruct (handleValidate_settles arg st) as (Hr & Hl & Hd & Hc).
    split; [exact Hr |]. split; [exact Hl |]. split; [exact Hd |].
    split; [exact Hc |]. split; [apply handleValidate_input |].
    intros prior. rewrite !handleValidate_result.
    destruct arg; reflexivity.
Qed.



End AppFacts.

(** * The properties on the sample host *)

Lemma sample_ShareLinkRoundTrip :
  ShareLinkRoundTrip Sample.compressToEncodedURIComponent
    Sample.decompressFromEncodedURIComponent Sample.searchParams_get.
Proof.
  intros text. exists (lit "Q" ++ text). repeat split; reflexivity.
Qed.

Lemma validate_outcome_witness :
  validate Sample.manifestSchema Sample.badManifest
  = Failure
      {| issues := [ missingField [Key (lit "version")];
                     invalidType [Key (lit "types"); Index 1] ] |}
  /\ validate Sample.manifestSchema Sample.goodManifest
     = Success Sample.goodManifest
  /\ validate Sample.manifestSchema Sample.extraManifest
     = SuccessWithWarnings Sample.extraManifest
         {| issues :=
              [ unrecognizedKey
                  [Key (lit "catalogs"); Index 0; Key (lit "color")];
                unrecognizedKey [Key (lit "author")];
                unrecognizedKey [Key (lit "homepage")] ] |}.
Proof.
  split; [| split].
  - apply (proj1 (validate_outcome Sample.manifestSchema Sample.badManifest)).
    vm_compute. reflexivity.
  - apply (proj1 (proj2
             (validate_outcome Sample.manifestSchema Sample.goodManifest))
           Sample.goodManifest Sample.goodManifest);
      vm_compute; reflexivity.
  - apply (proj2 (proj2
             (validate_outcome Sample.manifestSchema Sample.extraManifest)));
      vm_compute; reflexivity.
Defined.

Lemma undeclared_fields_warn_witness :
  conforms Sample.manifestShape Sample.extraManifest
  /\ 1 <= undeclaredFields Sample.manifestShape Sample.extraManifest
  /\ exists w,
       validate Sample.manifestSchema Sample.extraManifest
       = SuccessWithWarnings Sample.extraManifest w
       /\ List.length (issues w) = 3.
Proof.
  assert (Hc : conforms Sample.manifestShape Sample.extraManifest)
    by (vm_compute; reflexivity).
  assert (Hn : 1 <= undeclaredFields Sample.manifestShape Sample.extraManifest)
    by (vm_compute; repeat constructor).
  split; [exact Hc |]. split; [exact Hn |].
  exact (undeclared_fields_warn Hc Hn).
Defined.

Lemma violation_fails_witness :
  Violates Sample.manifestShape Sample.badManifest
    [Key (lit "types"); Index 1]
  /\ exists e,
       validate Sample.manifestSchema Sample.badManifest = Failure e
       /\ exists issue,
            In issue (issues e)
            /\ path issue = [Key (lit "types"); Index 1].
Proof.
  assert (Hv : Violates Sample.manifestShape Sample.badManifest
                 [Key (lit "types"); Index 1]).
  { apply Violates_field with (req := true) (t := SArray SString)
      (v := JArray [JString (lit "movie"); JNumber 7]).
    - repeat (apply HasField_here || apply HasField_later).
    - vm_compute. reflexivity.
    - apply (@Violates_element SString _ 1 (JNumber 7) []).
      + reflexivity.
      + apply Violates_type. reflexivity. }
  split; [exact Hv |]. exact (violation_fails Hv).
Defined.

Lemma blank_input_fails_witness :
  whitespaceOnly Sample.blankText = true
  /\ exists issue,
       validationResult
         (Sample.handleValidate (ArgString Sample.blankText) initialState)
       = Some (Failure {| issues := [issue] |})
       /\ path issue = []
       /\ code issue = lit "custom".
Proof.
  split; [reflexivity |].
  apply (blank_input_fails Sample.manifestSchema Sample.JSON_parse
           Sample.JSON_stringify Sample.fetch
           (ArgString Sample.blankText) initialState).
  reflexivity.
Defined.

Lemma dropped_file_input_witness :
  input (Sample.handleDrop (Some Sample.compactText) initialState)
  = Sample.formattedText
  /\ input (Sample.handleDrop (Some (lit "{ id: 1 }")) initialState)
     = lit "{ id: 1 }".
Proof.
  split.
  - apply (proj1 (dropped_file_input Sample.JSON_parse Sample.JSON_stringify
                    Sample.compactText initialState)
             (JArray [JNumber 1])).
    vm_compute. reflexivity.
  - apply (proj2 (dropped_file_input Sample.JSON_parse Sample.JSON_stringify
                    (lit "{ id: 1 }") initialState)
             (lit "Unexpected token")).
    vm_compute. reflexivity.
Defined.

Lemma failures_normalized_witness :
  FailureSource Sample.manifestSchema Sample.JSON_parse Sample.fetch
    (ArgString Sample.missingUrl) initialState
  /\ exists e,
       validationResult
         (Sample.handleValidate (ArgString Sample.missingUrl) initialState)
       = Some (Failure e)
       /\ isLoading
            (Sample.handleValidate (ArgString Sample.missingUrl) initialState)
          = false.
Proof.
  assert (Hsrc : FailureSource Sample.manifestSchema Sample.JSON_parse
                   Sample.fetch (ArgString Sample.missingUrl) initialState).
  { apply HttpStatus
      with (response := {| ok := false; statusText := lit "Not Found";
                           response_json := Thrown (lit "Unexpected token") |});
      vm_compute; reflexivity. }
  split; [exact Hsrc |].
  exact (failures_normalized Sample.JSON_stringify Hsrc).
Defined.

Lemma attempt_clears_then_settles_witness :
  Sample.handleValidate_begin ArgEvent Sample.validatedState
  = AwaitingFetch Sample.manifestUrl
      (setValidationResult None (setIsLoading true Sample.validatedState))
  /\ validationResult (Sample.handleValidate ArgEvent Sample.validatedState)
     = Some (Success Sample.goodManifest).
Proof.
  assert (Hb : exists st1,
             Sample.handleValidate_begin ArgEvent Sample.validatedState
             = AwaitingFetch Sample.manifestUrl st1).
  { eexists. vm_compute. reflexivity. }
  destruct Hb as [st1 Hst1].
  pose proof (proj1 (attempt_clears_then_settles Sample.manifestSchema
                       Sample.JSON_parse Sample.JSON_stringify Sample.fetch
                       ArgEvent Sample.validatedState)
                _ _ Hst1) as Hclear.
  split.
  - unfold Sample.handleValidate_begin in *. rewrite Hst1, Hclear.
    reflexivity.
  - vm_compute. reflexivity.
Defined.



(** C8, as stated, fails: while the manifest is fetched the result of
    the earlier attempt is no longer there. *)
Lemma prior_result_cleared :
  validationResult Sample.validatedState
  = Some (Success Sample.goodManifest)
  /\ exists st1,
       Sample.handleValidate_begin ArgEvent Sample.validatedState
       = AwaitingFetch Sample.manifestUrl st1
       /\ validationResult st1 = None
       /\ validationResult st1 <> validationResult Sample.validatedState.
Proof.
  split; [reflexivity |].
  eexists. split; [vm_compute; reflexivity |].
  split; [reflexivity | discriminate].
Qed.

(** * Further properties of the handlers *)

(** ** [trim] *)

Lemma trimStart_idempotent s : trimStart (trimStart s) = trimStart s.
Proof.
  induction s as [| c s IH]; cbn; [reflexivity |].
  destruct (isWhiteSpace c) eqn:Hc; [exact IH |].
  cbn. now rewrite Hc.
Qed.

Lemma trimStart_snoc s c :
  trimStart (s ++ [c])
  = match trimStart s with
    | [] => if isWhiteSpace c then [] else [c]
    | d :: r => (d :: r) ++ [c]
    end.
Proof.
  induction s as [| d s IH]; cbn.
  - destruct (isWhiteSpace c); reflexivity.
  - destruct (isWhiteSpace d); [exact IH | reflexivity].
Qed.

Lemma trimEnd_cons c s :
  trimEnd (c :: s)
  = match trimEnd s with
    | [] => if isWhiteSpace c then [] else [c]
    | d :: r => c :: d :: r
    end.
Proof.
  unfold trimEnd. cbn [rev]. rewrite trimStart_snoc.
  destruct (trimStart (rev s)) as [| d r] eqn:Ht.
  - cbn. destruct (isWhiteSpace c); reflexivity.
  - rewrite rev_app_distr. cbn [rev app].
    destruct (rev r ++ [d]) as [| e r'] eqn:Hr.
    + now destruct (rev r).
    + reflexivity.
Qed.

Lemma trimEnd_idempotent s : trimEnd (trimEnd s) = trimEnd s.
Proof.
  unfold trimEnd. now rewrite rev_involutive, trimStart_idempotent.
Qed.

(** What [trimStart] leaves does not begin with white space, and
    [trimEnd] keeps it so. *)
Lemma trimStart_trimEnd_trimStart s :
  trimStart (trimEnd (trimStart s)) = trimEnd (trimStart s).
Proof.
  induction s as [| c s IH]; [reflexivity |].
  cbn [trimStart]. destruct (isWhiteSpace c) eqn:Hc; [exact IH |].
  rewrite trimEnd_cons.
  destruct (trimEnd s); rewrite ?Hc; cbn; rewrite ?Hc; reflexivity.
Qed.

Lemma trim_idempotent s : trim (trim s) = trim s.
Proof.
  unfold trim. now rewrite trimStart_trimEnd_trimStart, trimEnd_idempotent.
Qed.

(** ** The handlers and the rendered page *)

Lemma join_app p q :
  p <> [] -> q <> [] -> join (p ++ q) = join p ++ lit "." ++ join q.
Proof.
  intros Hp Hq. induction p as [| seg p IH]; [congruence |].
  destruct p as [| seg' p].
  - destruct q as [| seg' q]; [congruence | reflexivity].
  - change (join ((seg :: seg' :: p) ++ q))
      with (segmentText seg ++ lit "." ++ join ((seg' :: p) ++ q)).
    rewrite IH by discriminate.
    change (join (seg :: seg' :: p))
      with (segmentText seg ++ lit "." ++ join (seg' :: p)).
    now rewrite <- !app_assoc.
Qed.

(** X6. The label of a path made of two non-empty parts is the label of
    the first, a dot, and the label of the second. *)
Theorem pathLabel_app (p q : list pathSegment) :
  p <> [] -> q <> [] ->
  pathLabel (p ++ q) = pathLabel p ++ lit "." ++ pathLabel q.
Proof.
  intros Hp Hq.
  destruct p as [| a p]; [congruence |]. destruct q as [| b q]; [congruence |].
  change (join ((a :: p) ++ b :: q)
          = join (a :: p) ++ lit "." ++ join (b :: q)).
  now apply join_app.
Qed.

Section AppViewFacts.
Context {Schema : Type} `{ZodSchema Schema}.
Variable manifestSchema : Schema.
Variable JSON_parse : jsstring -> outcome json.
Variable JSON_stringify : json -> nat -> jsstring.
Variable fetch : jsstring -> outcome Response.
Variable compressToEncodedURIComponent : jsstring -> jsstring.
Variable decompressFromEncodedURIComponent : jsstring -> option jsstring.
Variable searchParams_get : jsstring -> jsstring -> option jsstring.
Variable history_replaceState : jsstring -> Window -> outcome Window.
Variable clipboard_writeText : jsstring -> Window -> outcome Window.

#[local] Abbreviation handleValidate :=
  (handleValidate manifestSchema JSON_parse JSON_stringify fetch).
#[local] Abbreviation handleValidate_begin :=
  (handleValidate_begin manifestSchema JSON_parse JSON_stringify).
#[local] Abbreviation handleDrop := (handleDrop JSON_parse JSON_stringify).
#[local] Abbreviation reader_onload :=
  (reader_onload JSON_parse JSON_stringify).
#[local] Abbreviation formatJson := (formatJson JSON_parse JSON_stringify).
#[local] Abbreviation handlePaste := (handlePaste JSON_parse JSON_stringify).
#[local] Abbreviation autoFetch_fire := (autoFetch_fire JSON_stringify).
#[local] Abbreviation handleShare :=
  (handleShare compressToEncodedURIComponent history_replaceState
     clipboard_writeText).
#[local] Abbreviation sharedText :=
  (sharedText decompressFromEncodedURIComponent searchParams_get).
#[local] Abbreviation loadEffect :=
  (loadEffect manifestSchema JSON_parse JSON_stringify fetch
     decompressFromEncodedURIComponent searchParams_get).
#[local] Abbreviation inputAfterValidate :=
  (inputAfterValidate JSON_parse JSON_stringify).
#[local] Abbreviation ShareLinkRoundTrip :=
  (ShareLinkRoundTrip compressToEncodedURIComponent
     decompressFromEncodedURIComponent searchParams_get).

(** Where [handleValidate] suspends, and in which state. *)
Lemma handleValidate_begin_awaits arg st url st1 :
  handleValidate_begin arg st = AwaitingFetch url st1 ->
  url = trim (currentInput arg st)
  /\ isUrl url = true
  /\ st1 = setValidationResult None (setIsLoading true st).
Proof.
  unfold App.handleValidate_begin.
  destruct (falsy (trim (currentInput arg st))); [discriminate |].
  destruct (isUrl (trim (currentInput arg st))) eqn:Hu; [| discriminate].
  intros [= <- <-]. auto.
Qed.

(** The stored result is that of [validate] on some document, or the
    one built by the [catch] clause. *)
Lemma handleValidate_stored arg st :
  (exists manifest,
      validationResult (handleValidate arg st)
      = Some (validate manifestSchema manifest))
  \/ (exists msg,
      validationResult (handleValidate arg st) = Some (customFailure msg)).
Proof.
  rewrite handleValidate_result. cbv zeta.
  destruct (falsy (trim (currentInput arg st))); [right; eauto |].
  destruct (isUrl (trim (currentInput arg st))).
  - destruct (fetch (trim (currentInput arg st))) as [response | msg];
      [| right; eauto].
    destruct (ok response); [| right; eauto].
    destruct (response_json response); [left | right]; eauto.
  - destruct (JSON_parse (trim (currentInput arg st)));
      [left | right]; eauto.
Qed.

(** The block rendered depends on the stored result only. *)
Lemma resultBlock_blockOf st r :
  validationResult st = Some r -> resultBlock st = blockOf r.
Proof. unfold blockOf, resultBlock. cbn. now intros ->. Qed.

(** X1. White space around the text never matters: validating a text
    and validating its trimmed form end in the same state. *)
Theorem validation_ignores_surrounding_space (arg : HandlerArg)
    (st : AppState) :
  handleValidate arg st
  = handleValidate (ArgString (trim (currentInput arg st))) st.
Proof.
  unfold App.handleValidate, App.handleValidate_begin.
  cbn [currentInput]. now rewrite trim_idempotent.
Qed.

(** X2. While the fetch of an attempt is awaited, the page shows no
    result block, the validate button is disabled and reads
    Validating..., and the text area is as it was. *)
Theorem pending_attempt_view (arg : HandlerArg) (st : AppState)
    (url : jsstring) (st1 : AppState) :
  handleValidate_begin arg st = AwaitingFetch url st1 ->
  url = trim (currentInput arg st)
  /\ resultBlock st1 = NoResult
  /\ validateDisabled st1 = true
  /\ validateCaption st1 = lit "Validating..."
  /\ input st1 = input st.
Proof.
  intros Hb. apply handleValidate_begin_awaits in Hb as (Hurl & _ & ->).
  repeat split; auto.
Qed.

(** X3. After an attempt the page always shows one of the three result
    blocks, the button reads Validate Manifest again, and a failure
    block announces exactly as many issues as it lists. *)
Theorem finished_attempt_view (arg : HandlerArg) (st : AppState) :
  validateCaption (handleValidate arg st) = lit "Validate Manifest"
  /\ match resultBlock (handleValidate arg st) with
     | NoResult => False
     | ValidationFailed found rows =>
         exists listed,
           rows = Some listed /\ found = Some (List.length listed)
     | ValidWithWarnings _ | ValidManifest => True
     end.
Proof.
  split.
  - unfold validateCaption.
    now rewrite (proj1 (proj2 (handleValidate_settles manifestSchema
                                 JSON_parse JSON_stringify fetch arg st))).
  - unfold resultBlock.
    destruct (handleValidate_stored arg st) as [[manifest Hr] | [msg Hr]];
      rewrite Hr.
    + unfold validate.
      destruct (safeParse manifestSchema manifest) as [d | e]; cbn.
      * destruct (safeParse (strict manifestSchema) manifest); exact I.
      * eexists. split; [reflexivity |]. now rewrite length_map.
    + cbn. eexists. split; reflexivity.
Qed.

(** X4. The block shown for a validated document follows the two
    passes: the failure block with the issues of the permissive match,
    the success block when both matches succeed, the warning block with
    the issues of the strict match otherwise. *)
Theorem validated_document_view (manifest : json) (st : AppState) :
  let shown :=
    resultBlock
      (setValidationResult (Some (validate manifestSchema manifest)) st) in
  (forall e,
      safeParse manifestSchema manifest = ParseFailure e ->
      shown = ValidationFailed (Some (List.length (issues e)))
                (Some (map issueRow (issues e))))
  /\ (forall d d',
      safeParse manifestSchema manifest = ParseSuccess d ->
      safeParse (strict manifestSchema) manifest = ParseSuccess d' ->
      shown = ValidManifest)
  /\ (forall d w,
      safeParse manifestSchema manifest = ParseSuccess d ->
      safeParse (strict manifestSchema) manifest = ParseFailure w ->
      shown = ValidWithWarnings (map issueRow (issues w))).
Proof.
  cbv zeta. unfold resultBlock, validate. cbn [validationResult
    setValidationResult].
  repeat split.
  - intros e Hp. now rewrite Hp.
  - intros d d' Hp Hs. now rewrite Hp, Hs.
  - intros d w Hp Hs. now rewrite Hp, Hs.
Qed.

(** X5. What an attempt renders: the block of [validate] on the
    document it obtained (the parsed text, or the body of a successful
    response), and otherwise the failure block with one single issue, of
    code custom and labelled root, whose message tells the source: no
    input, a failed fetch, a status that is not a success, a body or a
    text that does not parse. *)
Theorem caught_error_view (arg : HandlerArg) (st : AppState) :
  let t := trim (currentInput arg st) in
  resultBlock (handleValidate arg st)
  = if falsy t then
      caughtBlock (lit "Please enter JSON content or a URL")
    else if isUrl t then
      match fetch t with
      | Returned response =>
          if ok response then
            match response_json response with
            | Returned manifest => blockOf (validate manifestSchema manifest)
            | Thrown msg =>
                caughtBlock (lit "Failed to fetch manifest: " ++ msg)
            end
          else caughtBlock
                 (lit "Failed to fetch manifest: "
                  ++ lit "Failed to fetch: " ++ statusText response)
      | Thrown msg => caughtBlock (lit "Failed to fetch manifest: " ++ msg)
      end
    else
      match JSON_parse t with
      | Returned manifest => blockOf (validate manifestSchema manifest)
      | Thrown msg => caughtBlock (lit "Invalid JSON format: " ++ msg)
      end.
Proof.
  cbv zeta.
  rewrite (resultBlock_blockOf _ (handleValidate_result manifestSchema
             JSON_parse JSON_stringify fetch arg st)).
  destruct (falsy (trim (currentInput arg st))); [reflexivity |].
  destruct (isUrl (trim (currentInput arg st))).
  - destruct (fetch (trim (currentInput arg st))) as [response | msg];
      [| reflexivity].
    destruct (ok response); [| reflexivity].
    destruct (response_json response); reflexivity.
  - destruct (JSON_parse (trim (currentInput arg st))); reflexivity.
Qed.

(** X7. When the input arms the automatic fetch of a manifest address,
    a validation of the same input awaits the fetch of that very
    address, and the share button is enabled. *)
Theorem autoFetch_matches_validate (st : AppState) (url : jsstring) :
  autoFetchUrl st = Some url ->
  handleValidate_begin ArgEvent st
  = AwaitingFetch url (setValidationResult None (setIsLoading true st))
  /\ endsWith url (lit "manifest.json") = true
  /\ shareDisabled st = false.
Proof.
  unfold autoFetchUrl, App.handleValidate_begin, shareDisabled, isUrl.
  cbn [currentInput].
  destruct (startsWith (trim (input st)) (lit "http://")
            || startsWith (trim (input st)) (lit "https://")) eqn:Hu;
    [| discriminate].
  destruct (endsWith (trim (input st)) (lit "manifest.json")) eqn:He;
    [| discriminate].
  intros [= <-].
  assert (Hf : falsy (trim (input st)) = false)
    by (apply isUrl_not_empty; exact Hu).
  rewrite Hf. auto.
Qed.

(** X8. The automatic fetch is silent.  A successful response whose
    body parses replaces the input by that body serialized with two
    spaces and changes nothing else; a failed fetch, a status that is not
    a success and a body that does not parse leave the whole state as it
    was. *)
Theorem autoFetch_silent (fetched : outcome Response) (st : AppState) :
  (forall response body,
      fetched = Returned response ->
      ok response = true ->
      response_json response = Returned body ->
      autoFetch_fire fetched st = setInput (JSON_stringify body 2) st)
  /\ (forall msg, fetched = Thrown msg -> autoFetch_fire fetched st = st)
  /\ (forall response,
      fetched = Returned response ->
      ok response = false ->
      autoFetch_fire fetched st = st)
  /\ (forall response msg,
      fetched = Returned response ->
      ok response = true ->
      response_json response = Thrown msg ->
      autoFetch_fire fetched st = st).
Proof.
  unfold App.autoFetch_fire, tryCatch, bind, liftOutcome, update, ret.
  repeat split.
  - intros response body -> Hok Hj. now rewrite Hok, Hj.
  - now intros msg ->.
  - intros response -> Hok. now rewrite Hok.
  - intros response msg -> Hok Hj. now rewrite Hok, Hj.
Qed.

(** X9. [handleShare] asks [replaceState] for the path of the page
    followed by [?data=] and the compressed input, whatever query the
    page had.  When [replaceState] throws, nothing is copied and nothing
    changes, [isCopied] included; when the clipboard call throws, the
    location is replaced already and [isCopied] stays; otherwise the
    address of the new location goes to the clipboard and [isCopied] is
    raised. *)
Theorem handleShare_outcomes (st : AppState) (w : Window) :
  let newUrl :=
    location_pathname w ++ lit "?data="
    ++ compressToEncodedURIComponent (input st) in
  (forall msg,
      history_replaceState newUrl w = Thrown msg ->
      handleShare st w = (st, w))
  /\ (forall w1 msg,
      history_replaceState newUrl w = Returned w1 ->
      clipboard_writeText (location_href w1) w1 = Thrown msg ->
      handleShare st w = (st, w1))
  /\ (forall w1 w2,
      history_replaceState newUrl w = Returned w1 ->
      clipboard_writeText (location_href w1) w1 = Returned w2 ->
      handleShare st w = (setIsCopied true st, w2)).
Proof.
  cbv zeta. unfold App.handleShare. repeat split.
  - intros msg Hr. now rewrite Hr.
  - intros w1 msg Hr Hc. now rewrite Hr, Hc.
  - intros w1 w2 Hr Hc. now rewrite Hr, Hc.
Qed.

(** X10. A page opened from a shared link shows what validating the
    shared input shows: the same stored result, the same result block,
    the same text in the text area, and no loading flag. *)
Theorem loaded_page_matches_validation (st : AppState) (w : Window) :
  ShareLinkRoundTrip ->
  location_search (snd (handleShare st w))
  = lit "?data=" ++ compressToEncodedURIComponent (input st) ->
  input st <> [] ->
  let loaded := loadEffect (snd (handleShare st w)) initialState in
  validationResult loaded = validationResult (handleValidate ArgEvent st)
  /\ resultBlock loaded = resultBlock (handleValidate ArgEvent st)
  /\ input loaded = input (handleValidate ArgEvent st)
  /\ isLoading loaded = false.
Proof.
  intros Hrt Hsearch Hne. cbv zeta.
  destruct (Hrt (input st)) as (data' & Hget & Hfalsy & Hdec).
  assert (Hload :
    loadEffect (snd (handleShare st w)) initialState
    = handleValidate (ArgString (input st)) (setInput (input st) initialState)).
  { unfold App.loadEffect. rewrite Hsearch, Hget, Hfalsy, Hdec.
    now rewrite (proj2 (falsy_false_iff _) Hne). }
  rewrite Hload.
  assert (Hres :
    validationResult
      (handleValidate (ArgString (input st))
         (setInput (input st) initialState))
    = validationResult (handleValidate ArgEvent st))
    by (now rewrite !handleValidate_result).
  split; [exact Hres |].
  split; [unfold resultBlock; now rewrite Hres |].
  split; [now rewrite !handleValidate_input |].
  apply handleValidate_settles.
Qed.

(** X11. The load effect leaves the state as it is when the location
    has no [data] parameter, when that parameter is empty, when it does
    not decompress and when it decompresses to the empty text.  For any
    other text it is [setInput] followed by [handleValidate] on that
    text, and so ends with a result block on the page, no loading flag
    and, in the text area, the text as [handleValidate] leaves it. *)
Theorem loadEffect_settles (w : Window) (st : AppState) :
  (searchParams_get (location_search w) (lit "data") = None ->
   loadEffect w st = st)
  /\ (forall data,
      searchParams_get (location_search w) (lit "data") = Some data ->
      (data = []
       \/ decompressFromEncodedURIComponent data = None
       \/ decompressFromEncodedURIComponent data = Some []) ->
      loadEffect w st = st)
  /\ (forall data text,
      searchParams_get (location_search w) (lit "data") = Some data ->
      data <> [] ->
      decompressFromEncodedURIComponent data = Some text ->
      text <> [] ->
      loadEffect w st
      = handleValidate (ArgString text) (setInput text st)
      /\ input (loadEffect w st) = inputAfterValidate text text
      /\ resultBlock (loadEffect w st) <> NoResult
      /\ isLoading (loadEffect w st) = false).
Proof.
  unfold App.loadEffect. split; [| split].
  - now intros ->.
  - intros data' -> [-> | [Hd | Hd]]; [reflexivity | |];
      destruct (falsy data'); try reflexivity; now rewrite Hd.
  - intros data' text -> Hdata Hd Htext.
    rewrite (proj2 (falsy_false_iff _) Hdata), Hd,
      (proj2 (falsy_false_iff _) Htext).
    split; [reflexivity |].
    split; [now rewrite handleValidate_input |].
    destruct (handleValidate_settles manifestSchema JSON_parse JSON_stringify
                fetch (ArgString text) (setInput text st))
      as ([r Hr] & Hl & _).
    split; [| exact Hl].
    unfold resultBlock. rewrite Hr.
    destruct (success r); [destruct (warning r) |]; discriminate.
Qed.

(** X12. Dropping a file is typing its text and leaving the field: the
    state after the file is read is the state [formatJson] makes of the
    text, with the drag flag lowered. *)
Theorem drop_is_type_then_blur (content : jsstring) (st : AppState) :
  handleDrop (Some content) st
  = formatJson (setInput content (handleDragLeave st)).
Proof.
  unfold App.handleDrop, App.reader_onload, App.formatJson, handleDragLeave,
    tryCatch, bind, liftOutcome, update, ret.
  cbn [input setInput].
  destruct (JSON_parse content); reflexivity.
Qed.

(** X13. A paste replaces the whole input, by the pasted text as
    [formatJson] lays it out, exactly when that text parses to an array
    or to an object; a text that does not parse, or parses to [null], a
    boolean, a number or a string, is left to the browser. *)
Theorem paste_replaces_only_containers (pastedText : jsstring)
    (st : AppState) :
  snd (handlePaste pastedText st)
  = match JSON_parse pastedText with
    | Returned (JArray _) | Returned (JObject _) => true
    | _ => false
    end
  /\ (snd (handlePaste pastedText st) = true ->
      fst (handlePaste pastedText st) = formatJson (setInput pastedText st))
  /\ (snd (handlePaste pastedText st) = false ->
      fst (handlePaste pastedText st) = st).
Proof.
  unfold App.handlePaste, App.formatJson, tryCatch, bind, liftOutcome,
    update, ret.
  cbn [input setInput].
  destruct (JSON_parse pastedText) as [[| b | n | s | xs | ms] | msg]; cbn;
    repeat split; intros; (reflexivity || discriminate).
Qed.

(** X14. Only a validation touches the stored result and the loading
    flag: sharing, dragging, dropping, pasting, leaving the field and
    the automatic fetch keep both. *)
Theorem only_validation_touches_result :
  (forall w, keepsResult (fun st => fst (handleShare st w)))
  /\ keepsResult handleDragOver
  /\ keepsResult handleDragLeave
  /\ (forall file, keepsResult (handleDrop file))
  /\ (forall pastedText,
         keepsResult (fun st => fst (handlePaste pastedText st)))
  /\ keepsResult formatJson
  /\ (forall fetched, keepsResult (autoFetch_fire fetched)).
Proof.
  unfold keepsResult, App.handleDrop, App.reader_onload, App.handlePaste,
    App.formatJson, App.autoFetch_fire, tryCatch, bind, liftOutcome,
    update, ret.
  unfold App.handleShare.
  repeat split; try reflexivity.
  - destruct (history_replaceState _ w) as [w1 |]; [| reflexivity].
    destruct (clipboard_writeText _ w1); reflexivity.
  - destruct (history_replaceState _ w) as [w1 |]; [| reflexivity].
    destruct (clipboard_writeText _ w1); reflexivity.
  - destruct file as [content |]; [| reflexivity].
    destruct (JSON_parse content); reflexivity.
  - destruct file as [content |]; [| reflexivity].
    destruct (JSON_parse content); reflexivity.
  - destruct (JSON_parse pastedText) as [v |]; [| reflexivity].
    destruct (typeofObject v && negb (isNull v)); reflexivity.
  - destruct (JSON_parse pastedText) as [v |]; [| reflexivity].
    destruct (typeofObject v && negb (isNull v)); reflexivity.
  - destruct (JSON_parse (input st)); reflexivity.
  - destruct (JSON_parse (input st)); reflexivity.
  - destruct fetched as [response |]; [| reflexivity].
    destruct (ok response); [| reflexivity].
    destruct (response_json response); reflexivity.
  - destruct fetched as [response |]; [| reflexivity].
    destruct (ok response); [| reflexivity].
    destruct (response_json response); reflexivity.
Qed.

(** X15. On a trimmed, non-empty input that is not an address, the
    validate button lays the text out exactly as leaving the field
    does. *)
Theorem validate_formats_like_blur (st : AppState) :
  trim (input st) = input st ->
  input st <> [] ->
  isUrl (input st) = false ->
  input (handleValidate ArgEvent st) = input (formatJson st).
Proof.
  intros Ht Hne Hu. rewrite handleValidate_input.
  unfold App.inputAfterValidate, App.formatJson, tryCatch, bind, liftOutcome,
    update, ret.
  cbn [currentInput]. rewrite Ht, Hu, (proj2 (falsy_false_iff _) Hne).
  cbn [orb]. destruct (JSON_parse (input st)); reflexivity.
Qed.

End AppViewFacts.

(** ** The further properties on the sample host *)

Lemma pathLabel_app_witness :
  pathLabel ([Key (lit "catalogs"); Index 0] ++ [Key (lit "color")])
  = lit "catalogs.0.color".
Proof.
  rewrite (@pathLabel_app [Key (lit "catalogs"); Index 0]
             [Key (lit "color")]); [reflexivity | discriminate | discriminate].
Defined.

Lemma pending_attempt_view_witness :
  Sample.handleValidate_begin ArgEvent Sample.validatedState
  = AwaitingFetch Sample.manifestUrl
      (setValidationResult None (setIsLoading true Sample.validatedState))
  /\ resultBlock
       (setValidationResult None (setIsLoading true Sample.validatedState))
     = NoResult
  /\ validateDisabled
       (setValidationResult None (setIsLoading true Sample.validatedState))
     = true.
Proof.
  assert (Hb : Sample.handleValidate_begin ArgEvent Sample.validatedState
               = AwaitingFetch Sample.manifestUrl
                   (setValidationResult None
                      (setIsLoading true Sample.validatedState)))
    by (vm_compute; reflexivity).
  split; [exact Hb |].
  destruct (pending_attempt_view Sample.manifestSchema Sample.JSON_parse
              Sample.JSON_stringify ArgEvent Sample.validatedState Hb)
    as (_ & Hblock & Hdisabled & _).
  split; [exact Hblock | exact Hdisabled].
Defined.

Lemma validated_document_view_witness :
  resultBlock
    (setValidationResult
       (Some (validate Sample.manifestSchema Sample.badManifest))
       initialState)
  = ValidationFailed (Some 2)
      (Some [ {| row_code := lit "invalid_type";
                 row_path := lit "version";
                 row_message := lit "Required" |};
              {| row_code := lit "invalid_type";
                 row_path := lit "types.1";
                 row_message := lit "Invalid input" |} ])
  /\ resultBlock
       (setValidationResult
          (Some (validate Sample.manifestSchema Sample.goodManifest))
          initialState)
     = ValidManifest
  /\ resultBlock
       (setValidationResult
          (Some (validate Sample.manifestSchema Sample.extraManifest))
          initialState)
     = ValidWithWarnings
         [ {| row_code := lit "unrecognized_keys";
              row_path := lit "catalogs.0.color";
              row_message := lit "Unrecognized key" |};
           {| row_code := lit "unrecognized_keys";
              row_path := lit "author";
              row_message := lit "Unrecognized key" |};
           {| row_code := lit "unrecognized_keys";
              row_path := lit "homepage";
              row_message := lit "Unrecognized key" |} ].
Proof.
  split; [| split].
  - apply (proj1 (validated_document_view Sample.manifestSchema
                    Sample.badManifest initialState)
             {| issues := [ missingField [Key (lit "version")];
                            invalidType [Key (lit "types"); Index 1] ] |}).
    vm_compute. reflexivity.
  - apply (proj1 (proj2 (validated_document_view Sample.manifestSchema
                           Sample.goodManifest initialState))
             Sample.goodManifest Sample.goodManifest);
      vm_compute; reflexivity.
  - apply (proj2 (proj2 (validated_document_view Sample.manifestSchema
                           Sample.extraManifest initialState))
             Sample.extraManifest
             {| issues :=
                  [ unrecognizedKey
                      [Key (lit "catalogs"); Index 0; Key (lit "color")];
                    unrecognizedKey [Key (lit "author")];
                    unrecognizedKey [Key (lit "homepage")] ] |});
      vm_compute; reflexivity.
Defined.

Lemma autoFetch_matches_validate_witness :
  autoFetchUrl Sample.validatedState = Some Sample.manifestUrl
  /\ Sample.handleValidate_begin ArgEvent Sample.validatedState
     = AwaitingFetch Sample.manifestUrl
         (setValidationResult None (setIsLoading true Sample.validatedState))
  /\ shareDisabled Sample.validatedState = false.
Proof.
  assert (Ha : autoFetchUrl Sample.validatedState = Some Sample.manifestUrl)
    by (vm_compute; reflexivity).
  split; [exact Ha |].
  destruct (autoFetch_matches_validate Sample.manifestSchema
              Sample.JSON_parse Sample.JSON_stringify
              Sample.validatedState Ha) as (Hb & _ & Hs).
  split; [exact Hb | exact Hs].
Defined.

Lemma autoFetch_silent_witness :
  autoFetch_fire Sample.JSON_stringify (Sample.fetch Sample.manifestUrl)
    Sample.validatedState
  = setInput (Sample.JSON_stringify Sample.goodManifest 2)
      Sample.validatedState
  /\ autoFetch_fire Sample.JSON_stringify (Sample.fetch Sample.missingUrl)
       Sample.missingState
     = Sample.missingState.
Proof.
  split.
  - apply (proj1 (autoFetch_silent Sample.JSON_stringify
                    (Sample.fetch Sample.manifestUrl) Sample.validatedState)
             {| ok := true; statusText := lit "OK";
                response_json := Returned Sample.goodManifest |}
             Sample.goodManifest);
      reflexivity.
  - apply (proj1 (proj2 (proj2 (autoFetch_silent Sample.JSON_stringify
                                  (Sample.fetch Sample.missingUrl)
                                  Sample.missingState)))
             {| ok := false; statusText := lit "Not Found";
                response_json := Thrown (lit "Unexpected token") |});
      reflexivity.
Defined.

Lemma handleShare_outcomes_witness :
  Sample.handleShare Sample.compactState Sample.foreignWindow
  = (Sample.compactState, Sample.foreignWindow)
  /\ fst (Sample.handleShare Sample.compactState Sample.window)
     = setIsCopied true Sample.compactState
  /\ clipboard (snd (Sample.handleShare Sample.compactState Sample.window))
     = Some (lit "https://validator.example/?data=Q[1]").
Proof.
  split.
  - apply (proj1 (handleShare_outcomes Sample.compressToEncodedURIComponent
                    Sample.history_replaceState Sample.clipboard_writeText
                    Sample.compactState Sample.foreignWindow)
             (lit "SecurityError")).
    reflexivity.
  - pose proof
      (proj2 (proj2 (handleShare_outcomes
                       Sample.compressToEncodedURIComponent
                       Sample.history_replaceState
                       Sample.clipboard_writeText
                       Sample.compactState Sample.window))
         {| location_origin := lit "https://validator.example";
            location_pathname := lit "/";
            location_search := lit "?data=Q[1]";
            clipboard := None |}
         {| location_origin := lit "https://validator.example";
            location_pathname := lit "/";
            location_search := lit "?data=Q[1]";
            clipboard := Some (lit "https://validator.example/?data=Q[1]") |}
         eq_refl eq_refl) as Hshare.
    unfold Sample.handleShare. rewrite Hshare. split; reflexivity.
Defined.

Lemma loaded_page_matches_validation_witness :
  location_search (snd (Sample.handleShare Sample.compactState Sample.window))
  = lit "?data=" ++ Sample.compressToEncodedURIComponent
                      (input Sample.compactState)
  /\ input Sample.compactState <> []
  /\ resultBlock
       (Sample.loadEffect
          (snd (Sample.handleShare Sample.compactState Sample.window))
          initialState)
     = resultBlock (Sample.handleValidate ArgEvent Sample.compactState)
  /\ input
       (Sample.loadEffect
          (snd (Sample.handleShare Sample.compactState Sample.window))
          initialState)
     = input (Sample.handleValidate ArgEvent Sample.compactState).
Proof.
  assert (Hsearch :
    location_search
      (snd (Sample.handleShare Sample.compactState Sample.window))
    = lit "?data=" ++ Sample.compressToEncodedURIComponent
                        (input Sample.compactState)) by reflexivity.
  assert (Hne : input Sample.compactState <> []) by discriminate.
  split; [exact Hsearch |]. split; [exact Hne |].
  destruct (loaded_page_matches_validation Sample.manifestSchema
              Sample.JSON_parse Sample.JSON_stringify Sample.fetch
              Sample.history_replaceState Sample.clipboard_writeText
              Sample.compactState Sample.window
              sample_ShareLinkRoundTrip Hsearch Hne)
    as (_ & Hblock & Hinput & _).
  split; [exact Hblock | exact Hinput].
Defined.

Lemma loadEffect_settles_witness :
  Sample.loadEffect Sample.window Sample.compactState = Sample.compactState
  /\ Sample.loadEffect
       (snd (Sample.handleShare Sample.compactState Sample.window))
       initialState
     = Sample.handleValidate (ArgString Sample.compactText)
         Sample.compactState
  /\ resultBlock
       (Sample.loadEffect
          (snd (Sample.handleShare Sample.compactState Sample.window))
          initialState)
     <> NoResult.
Proof.
  split.
  - apply (proj1 (loadEffect_settles Sample.manifestSchema Sample.JSON_parse
                    Sample.JSON_stringify Sample.fetch
                    Sample.decompressFromEncodedURIComponent
                    Sample.searchParams_get Sample.window
                    Sample.compactState)).
    reflexivity.
  - assert (Hne : forall text : jsstring, falsy text = false -> text <> [])
      by (intros text; apply falsy_false_iff).
    destruct (proj2 (proj2 (loadEffect_settles Sample.manifestSchema
                              Sample.JSON_parse Sample.JSON_stringify
                              Sample.fetch
                              Sample.decompressFromEncodedURIComponent
                              Sample.searchParams_get
                              (snd (Sample.handleShare Sample.compactState
                                      Sample.window))
                              initialState))
                (lit "Q[1]") Sample.compactText eq_refl
                (Hne (lit "Q[1]") eq_refl) eq_refl
                (Hne Sample.compactText eq_refl))
      as (Hload & _ & Hblock & _).
    split; [exact Hload | exact Hblock].
Defined.

Lemma paste_replaces_only_containers_witness :
  snd (Sample.handlePaste Sample.compactText initialState) = true
  /\ fst (Sample.handlePaste Sample.compactText initialState)
     = Sample.formatJson (setInput Sample.compactText initialState)
  /\ snd (Sample.handlePaste (lit "null") Sample.compactState) = false
  /\ fst (Sample.handlePaste (lit "null") Sample.compactState)
     = Sample.compactState.
Proof.
  assert (Hyes : snd (Sample.handlePaste Sample.compactText initialState)
                 = true) by (vm_compute; reflexivity).
  assert (Hno : snd (Sample.handlePaste (lit "null") Sample.compactState)
                = false) by (vm_compute; reflexivity).
  split; [exact Hyes |].
  split.
  - exact (proj1 (proj2 (paste_replaces_only_containers Sample.JSON_parse
                           Sample.JSON_stringify Sample.compactText
                           initialState))
             Hyes).
  - split; [exact Hno |].
    exact (proj2 (proj2 (paste_replaces_only_containers Sample.JSON_parse
                           Sample.JSON_stringify (lit "null")
                           Sample.compactState))
             Hno).
Defined.

Lemma validate_formats_like_blur_witness :
  trim (input Sample.compactState) = input Sample.compactState
  /\ isUrl (input Sample.compactState) = false
  /\ input (Sample.handleValidate ArgEvent Sample.compactState)
     = input (Sample.formatJson Sample.compactState).
Proof.
  split; [reflexivity |]. split; [reflexivity |].
  apply (validate_formats_like_blur Sample.manifestSchema Sample.JSON_parse
           Sample.JSON_stringify Sample.fetch Sample.compactState);
    [reflexivity | discriminate | reflexivity].
Defined.
